(** * Income-threshold estimators of the StatsCan income scripts

    A shallow embedding of the estimators of [fetch_statscan_income.py]
    and [statscan_income_analyzer.py], and the properties their
    specification states about them.

    Modelling conventions.
    - A bracket is the dictionary [{'range': str, 'percentage': number}];
      it is the record [bracket].  The key ['absolute'] is never read by an
      estimator and is left out.
    - Labels are ASCII strings; [str.lower], [str.strip] and the class [\d]
      are the ASCII ones.
    - A function that can raise returns a [result].  The exceptions that
      the estimators can reach on well-typed input are [ZeroDivisionError]
      and [IndexError], and, from [round] of an infinite or undefined
      float, [OverflowError] and [ValueError].
    - Numbers.  The scripts compute with Python's [float], IEEE 754
      binary64.  The estimators are written twice.  The modules [PyFetch]
      and [PyAnalyzer] follow the source operation by operation over an
      arithmetic [Py.arith], of which [Py.binary64] is the arithmetic of
      the scripts (an [int] is read as the float of the same value, exact
      below 2^53) and [Py.exact] the rationals; what is proved for every
      arithmetic, or for every arithmetic with [Py.laws], holds of the
      scripts as they run.  The modules [Fetch] and [Analyzer] are the same
      functions over the rationals [Q] ([rational_model_is_exact_instance]);
      a property proved of them alone is a property of the estimators in
      exact arithmetic, which a run in binary64 follows up to the rounding
      of its sums, products and quotients. *)

From Stdlib Require Import List String Ascii ZArith QArith Qround Qabs Lia Lqa Bool Permutation.
From Stdlib Require Import SpecFloat.
Import ListNotations.

Open Scope string_scope.
Open Scope list_scope.
Open Scope Q_scope.

(** ** Python string primitives *)

Module PyStr.

(** [s.replace(c, '')] for a one-character [c]. *)
Fixpoint remove_char (c : ascii) (s : string) : string :=
  match s with
  | EmptyString => EmptyString
  | String a rest =>
      if Ascii.eqb a c then remove_char c rest
      else String a (remove_char c rest)
  end.

Definition lower_char (a : ascii) : ascii :=
  let n := nat_of_ascii a in
  if (65 <=? n)%nat && (n <=? 90)%nat then ascii_of_nat (n + 32) else a.

(** [s.lower()] *)
Fixpoint lower (s : string) : string :=
  match s with
  | EmptyString => EmptyString
  | String a rest => String (lower_char a) (lower rest)
  end.

(** [sub in s] *)
Fixpoint contains (sub s : string) : bool :=
  if prefix sub s then true
  else match s with
       | EmptyString => false
       | String _ rest => contains sub rest
       end.

Definition is_space (a : ascii) : bool :=
  let n := nat_of_ascii a in
  ((9 <=? n)%nat && (n <=? 13)%nat) || ((28 <=? n)%nat && (n <=? 32)%nat).

Fixpoint lstrip (s : string) : string :=
  match s with
  | EmptyString => EmptyString
  | String a rest => if is_space a then lstrip rest else s
  end.

Fixpoint rstrip (s : string) : string :=
  match s with
  | EmptyString => EmptyString
  | String a rest =>
      match rstrip rest with
      | EmptyString => if is_space a then EmptyString else String a EmptyString
      | r => String a r
      end
  end.

(** [s.strip()] *)
Definition strip (s : string) : string := rstrip (lstrip s).

(** [s.endswith(c)] for a one-character [c]. *)
Fixpoint endswith_char (s : string) (c : ascii) : bool :=
  match s with
  | EmptyString => false
  | String a EmptyString => Ascii.eqb a c
  | String _ rest => endswith_char rest c
  end.

Definition is_digit (a : ascii) : bool :=
  let n := nat_of_ascii a in (48 <=? n)%nat && (n <=? 57)%nat.

(** [re.findall(r'\d+', s)]: the maximal runs of digits, left to right.
    [cur] is the run being read, most recent digit first. *)
Fixpoint findall_digits_aux (cur : list ascii) (s : string) : list string :=
  match s with
  | EmptyString =>
      match cur with
      | [] => []
      | _ => [string_of_list_ascii (rev cur)]
      end
  | String a rest =>
      if is_digit a then findall_digits_aux (a :: cur) rest
      else match cur with
           | [] => findall_digits_aux [] rest
           | _ => string_of_list_ascii (rev cur) :: findall_digits_aux [] rest
           end
  end.

Definition findall_digits (s : string) : list string :=
  findall_digits_aux [] s.

(** [int(tok)] for a token of [findall_digits]. *)
Definition int_of_digits (tok : string) : Z :=
  fold_left (fun acc a => (acc * 10 + (Z.of_nat (nat_of_ascii a) - 48))%Z)
            (list_ascii_of_string tok) 0%Z.

(** [float(tok)] for such a token: the same value, as a float. *)
Definition float_of_digits (tok : string) : Q := inject_Z (int_of_digits tok).

End PyStr.

(** ** Python numbers *)

(** [round(x)] of a float: the nearest integer, ties to the even one. *)
Definition py_round (x : Q) : Z :=
  let f := Qfloor x in
  match Qcompare (x - inject_Z f) (1 # 2) with
  | Lt => f
  | Gt => (f + 1)%Z
  | Eq => if Z.even f then f else (f + 1)%Z
  end.

Inductive exn : Type :=
| ZeroDivisionError
| IndexError
| OverflowError
| ValueError.

Inductive result (A : Type) : Type :=
| Ok (v : A)
| Raise (e : exn).

Arguments Ok {A} v.
Arguments Raise {A} e.

(** [x if x is not None else 0] *)
Definition or_zero (x : option Q) : Q :=
  match x with
  | Some v => v
  | None => 0
  end.

(** ** The data model *)

Record bracket : Type := mk_bracket {
  range : string;
  percentage : Q
}.

Definition distribution := list bracket.

(** The value of [cumulative_pct] after the loop has run over [d], started
    from [c]. *)
Definition cumulative_from (c : Q) (d : distribution) : Q :=
  fold_left (fun acc b => acc + percentage b) d c.

Definition cumulative (d : distribution) : Q := cumulative_from 0 d.

(** [distribution[-1]], when the list is not empty. *)
Fixpoint last_bracket (d : distribution) : option bracket :=
  match d with
  | [] => None
  | [b] => Some b
  | _ :: rest => last_bracket rest
  end.

(** The dictionary [income_data] that both scripts pass to
    [calculate_income_statistics]: each key may be missing ([None]). *)
Record income_data : Type := mk_income_data {
  geo_code : option string;
  geo_name : option string;
  total_population : option Z;
  median_household_income : option Q;
  average_household_income : option Q;
  income_distribution : option distribution
}.

(** [d.get(key, default)] *)
Definition get_or {A : Type} (x : option A) (default : A) : A :=
  match x with
  | Some v => v
  | None => default
  end.

(** ** fetch_statscan_income.py *)

Module Fetch.

Import PyStr.

(** [get_sample_toronto_income_data()['income_distribution']] *)
Definition sample_toronto_distribution : distribution :=
  [ mk_bracket "Under $10,000" 5.4;
    mk_bracket "$10,000 to $19,999" 7.1;
    mk_bracket "$20,000 to $29,999" 8.3;
    mk_bracket "$30,000 to $39,999" 8.9;
    mk_bracket "$40,000 to $49,999" 9.2;
    mk_bracket "$50,000 to $59,999" 9.0;
    mk_bracket "$60,000 to $69,999" 8.4;
    mk_bracket "$70,000 to $79,999" 7.6;
    mk_bracket "$80,000 to $89,999" 6.6;
    mk_bracket "$90,000 to $99,999" 5.7;
    mk_bracket "$100,000 to $149,999" 13.6;
    mk_bracket "$150,000 to $199,999" 7.3;
    mk_bracket "$200,000 and over" 2.9 ].

(** [range_str.replace('$', '').replace(',', '')] *)
Definition clean (range_str : string) : string :=
  remove_char "," (remove_char "$" range_str).

(** ['under' in clean_str.lower()] *)
Definition is_under (clean_str : string) : bool :=
  contains "under" (lower clean_str).

(** ['over' in clean_str.lower() or 'and over' in clean_str.lower()
     or clean_str.strip().endswith('+')] *)
Definition is_over (clean_str : string) : bool :=
  contains "over" (lower clean_str)
  || contains "and over" (lower clean_str)
  || endswith_char (strip clean_str) "+".

Definition extract_minimum_of_range (range_str : string) : option Q :=
  let clean_str := clean range_str in
  if is_under clean_str then
    match findall_digits clean_str with
    | _ :: _ => Some 0
    | [] => None
    end
  else if is_over clean_str then
    match findall_digits clean_str with
    | n0 :: _ => Some (float_of_digits n0)
    | [] => None
    end
  else
    match findall_digits clean_str with
    | n0 :: _ => Some (float_of_digits n0)
    | [] => None
    end.

Definition extract_maximum_of_range (range_str : string) : option Q :=
  let clean_str := clean range_str in
  if is_under clean_str then
    match findall_digits clean_str with
    | n0 :: _ => Some (float_of_digits n0)
    | [] => None
    end
  else if is_over clean_str then
    match findall_digits clean_str with
    | n0 :: _ => Some (float_of_digits n0 * 2)
    | [] => None
    end
  else
    match findall_digits clean_str with
    | _ :: n1 :: _ => Some (float_of_digits n1)
    | [n0] => Some (float_of_digits n0)
    | [] => None
    end.

(** The code after either loop: the maximum of the last bracket, [0] for
    the empty distribution. *)
Definition after_loop (d : distribution) : Q :=
  match last_bracket d with
  | Some b => or_zero (extract_maximum_of_range (range b))
  | None => 0
  end.

(** The loop of [calculate_75th_percentile_threshold_from_distribution],
    with the constant 75 as the parameter [target].  [None]: the loop ended
    without returning. *)
Fixpoint percentile_loop (target cumulative_pct : Q) (d : distribution)
  : option Q :=
  match d with
  | [] => None
  | b :: rest =>
      let cumulative_pct := cumulative_pct + percentage b in
      if Qle_bool target cumulative_pct
      then Some (or_zero (extract_minimum_of_range (range b)))
      else percentile_loop target cumulative_pct rest
  end.

Definition percentile_threshold_at (target : Q) (d : distribution) : Q :=
  match percentile_loop target 0 d with
  | Some v => v
  | None => after_loop d
  end.

Definition calculate_75th_percentile_threshold_from_distribution
  (d : distribution) : Q :=
  percentile_threshold_at 75 d.

(** What [calculate_bottom_25_threshold_from_distribution] returns from
    inside the loop, at the bracket [b] that crosses. *)
Definition interpolate (target cumulative_pct : Q) (b : bracket) : result Q :=
  let remaining_pct := target - cumulative_pct in
  if Qeq_bool (percentage b) 0 then Raise ZeroDivisionError
  else
    let bracket_share := remaining_pct / percentage b in
    let min_income := extract_minimum_of_range (range b) in
    let max_income := extract_maximum_of_range (range b) in
    match min_income, max_income with
    | Some mn, Some mx =>
        let threshold := mn + (mx - mn) * bracket_share in
        Ok (inject_Z (py_round threshold))
    | _, _ => Ok (or_zero min_income)
    end.

(** The loop of [calculate_bottom_25_threshold_from_distribution], with the
    constant 25 as the parameter [target]. *)
Fixpoint interpolated_loop (target cumulative_pct : Q) (d : distribution)
  : option (result Q) :=
  match d with
  | [] => None
  | b :: rest =>
      if Qle_bool target (cumulative_pct + percentage b)
      then Some (interpolate target cumulative_pct b)
      else interpolated_loop target (cumulative_pct + percentage b) rest
  end.

Definition interpolated_threshold_at (target : Q) (d : distribution)
  : result Q :=
  match interpolated_loop target 0 d with
  | Some r => r
  | None => Ok (after_loop d)
  end.

Definition calculate_bottom_25_threshold_from_distribution
  (d : distribution) : result Q :=
  interpolated_threshold_at 25 d.

(** [get_sample_toronto_income_data()] *)
Definition sample_toronto_income_data : income_data :=
  mk_income_data (Some "535") (Some "Toronto CMA") (Some 6448451%Z)
                 (Some 77000) (Some 96000) (Some sample_toronto_distribution).

(** The dictionary [results['geo_info']]. *)
Record geo_info : Type := mk_geo_info {
  code : option string;
  name : option string;
  population : option Z
}.

(** The dictionary that [calculate_income_statistics] returns. *)
Record income_statistics : Type := mk_income_statistics {
  average : Q;
  median : Q;
  top_75_percentile_threshold : Q;
  bottom_25_threshold : Q;
  ratio_median_to_avg : Q;
  geo : geo_info
}.

(** [calculate_income_statistics], without its printing. *)
Definition calculate_income_statistics (data : income_data)
  : result income_statistics :=
  let avg_income := get_or (average_household_income data) 0 in
  let median_income := get_or (median_household_income data) 0 in
  let top_75_percentile_threshold :=
    calculate_75th_percentile_threshold_from_distribution
      (get_or (income_distribution data) []) in
  match calculate_bottom_25_threshold_from_distribution
          (get_or (income_distribution data) []) with
  | Raise e => Raise e
  | Ok bottom_25_threshold =>
      let ratio_median_to_avg :=
        if Qle_bool avg_income 0 then 0 else median_income / avg_income in
      Ok (mk_income_statistics
            avg_income median_income top_75_percentile_threshold
            bottom_25_threshold ratio_median_to_avg
            (mk_geo_info (geo_code data) (geo_name data) (total_population data)))
  end.

End Fetch.

(** ** statscan_income_analyzer.py *)

Module Analyzer.

Import PyStr.

(** [search_stats_can_data()['income_distribution']] *)
Definition sample_income_distribution : distribution :=
  [ mk_bracket "<$20,000" 8.5;
    mk_bracket "$20,000-$39,999" 12.1;
    mk_bracket "$40,000-$59,999" 15.3;
    mk_bracket "$60,000-$79,999" 16.7;
    mk_bracket "$80,000-$99,999" 13.2;
    mk_bracket "$100,000-$149,999" 18.4;
    mk_bracket "$150,000-$199,999" 9.8;
    mk_bracket "$200,000+" 6.0 ].

Definition clean (range_str : string) : string :=
  remove_char "," (remove_char "$" range_str).

Definition extract_midpoint_of_range (range_str : string) : option Q :=
  let clean_str := clean range_str in
  match findall_digits clean_str with
  | [n0; n1] =>
      let low := int_of_digits n0 in
      let high := int_of_digits n1 in
      Some (inject_Z (low + high) / 2)
  | [n0] =>
      let value := inject_Z (int_of_digits n0) in
      if contains "<" clean_str then Some (value / 2)
      else if contains ">" clean_str || contains "+" clean_str
           then Some (value * 1.5)
           else Some value
  | _ => None
  end.

(** [if mid_point:] is false for [None] and for a midpoint equal to 0. *)
Definition truthy (mid_point : option Q) : bool :=
  match mid_point with
  | Some m => negb (Qeq_bool m 0)
  | None => false
  end.

(** One turn of the loop of [estimate_average_from_distribution] on the
    pair [(total_weighted_income, total_percentage)]. *)
Definition average_step (acc : Q * Q) (b : bracket) : Q * Q :=
  let mid_point := extract_midpoint_of_range (range b) in
  if truthy mid_point
  then (fst acc + or_zero mid_point * percentage b, snd acc + percentage b)
  else acc.

Definition estimate_average_from_distribution (d : distribution) : Q :=
  let totals := fold_left average_step d (0, 0) in
  let total_weighted_income := fst totals in
  let total_percentage := snd totals in
  if Qle_bool total_percentage 0 then 0
  else total_weighted_income / total_percentage.

(** What [calculate_top_75_threshold] does at a bracket where the
    cumulative share has reached the target: [Some] when it returns or
    raises, [None] when the loop goes on. *)
Definition at_crossing (b : bracket) : option (result Q) :=
  let clean_str := clean (range b) in
  let numbers := findall_digits clean_str in
  if contains "<" clean_str then
    match numbers with
    | n0 :: _ => Some (Ok (inject_Z (int_of_digits n0)))
    | [] => Some (Raise IndexError)
    end
  else
    match numbers with
    | n0 :: _ => Some (Ok (inject_Z (int_of_digits n0)))
    | [] => None
    end.

(** The loop of [calculate_top_75_threshold], with the constant 25 as the
    parameter [target]. *)
Fixpoint top_loop (target cumulative_pct : Q) (d : distribution)
  : option (result Q) :=
  match d with
  | [] => None
  | b :: rest =>
      let cumulative_pct := cumulative_pct + percentage b in
      if Qle_bool target cumulative_pct then
        match at_crossing b with
        | Some r => Some r
        | None => top_loop target cumulative_pct rest
        end
      else top_loop target cumulative_pct rest
  end.

(** The code after the loop: the first number of the last bracket. *)
Definition after_loop (d : distribution) : Q :=
  match last_bracket d with
  | Some b =>
      match findall_digits (clean (range b)) with
      | n0 :: _ => inject_Z (int_of_digits n0)
      | [] => 0
      end
  | None => 0
  end.

Definition top_threshold_at (target : Q) (d : distribution) : result Q :=
  match top_loop target 0 d with
  | Some r => r
  | None => Ok (after_loop d)
  end.

Definition calculate_top_75_threshold (d : distribution) : result Q :=
  top_threshold_at 25 d.

(** [search_stats_can_data()] *)
Definition sample_income_data : income_data :=
  mk_income_data None None None (Some 70000) (Some 85000)
                 (Some sample_income_distribution).

(** The dictionary that [calculate_income_statistics] returns. *)
Record income_statistics : Type := mk_income_statistics {
  average : Q;
  median : option Q;
  top_75_threshold : Q
}.

(** [calculate_income_statistics], without its printing. *)
Definition calculate_income_statistics (data : income_data)
  : result income_statistics :=
  let avg_income :=
    match average_household_income data with
    | Some a => a
    | None =>
        estimate_average_from_distribution (get_or (income_distribution data) [])
    end in
  let median_income := median_household_income data in
  match calculate_top_75_threshold (get_or (income_distribution data) []) with
  | Raise e => Raise e
  | Ok top_75_income_threshold =>
      Ok (mk_income_statistics avg_income median_income top_75_income_threshold)
  end.

End Analyzer.

(** ** The two scripts over their arithmetic *)

(** The estimators below are the same code once more, with the arithmetic
    of Python numbers as a parameter.  [exact] reads numbers as rationals
    and gives back the definitions of [Fetch] and [Analyzer] above;
    [binary64] is the arithmetic that the scripts run on. *)

Module Py.

Record arith : Type := mk_arith {
  num : Type;
  (** an [int] literal, [int(tok)] and [float(tok)] *)
  of_int : Z -> num;
  (** the literal [1.5] *)
  one_and_half : num;
  add : num -> num -> num;
  sub : num -> num -> num;
  mul : num -> num -> num;
  (** [x / y] for a divisor that is not 0 *)
  quotient : num -> num -> num;
  (** [x >= y] *)
  geb : num -> num -> bool;
  (** [x > y] *)
  gtb : num -> num -> bool;
  (** [x == 0] *)
  is_zero : num -> bool;
  (** [round(x)] *)
  round : num -> result Z;
  (** the number as a rational, when it is finite *)
  value : num -> option Q
}.

(** [x / y] *)
Definition div (A : arith) (x y : num A) : result (num A) :=
  if is_zero A y then Raise ZeroDivisionError else Ok (quotient A x y).

Record bracket (A : arith) : Type := mk_bracket {
  range : string;
  percentage : num A
}.

Arguments mk_bracket {A} range percentage.
Arguments range {A} b.
Arguments percentage {A} b.

Definition distribution (A : arith) : Type := list (bracket A).

Record income_data (A : arith) : Type := mk_income_data {
  geo_code : option string;
  geo_name : option string;
  total_population : option Z;
  median_household_income : option (num A);
  average_household_income : option (num A);
  income_distribution : option (distribution A)
}.

Arguments mk_income_data {A} _ _ _ _ _ _.
Arguments geo_code {A} _.
Arguments geo_name {A} _.
Arguments total_population {A} _.
Arguments median_household_income {A} _.
Arguments average_household_income {A} _.
Arguments income_distribution {A} _.

Section Arith.

Variable A : arith.

(** [x if x is not None else 0] *)
Definition or_zero (x : option (num A)) : num A :=
  match x with
  | Some v => v
  | None => of_int A 0
  end.

(** The value of [cumulative_pct] after the loop has run over [d], started
    from [c]: the sum as the code accumulates it. *)
Definition cumulative_from (c : num A) (d : distribution A) : num A :=
  fold_left (fun acc b => add A acc (percentage b)) d c.

Definition cumulative (d : distribution A) : num A :=
  cumulative_from (of_int A 0) d.

Fixpoint last_bracket (d : distribution A) : option (bracket A) :=
  match d with
  | [] => None
  | [b] => Some b
  | _ :: rest => last_bracket rest
  end.

(** The loop, entered with [cumulative_pct = c], runs over all of [pre]
    with the test [cumulative_pct >= target] false each time. *)
Fixpoint stays_below (target c : num A) (pre : distribution A) : Prop :=
  match pre with
  | [] => True
  | b :: rest =>
      geb A (add A c (percentage b)) target = false
      /\ stays_below target (add A c (percentage b)) rest
  end.

(** The same, said with the running sums of the prefixes. *)
Definition prefixes_below (target : num A) (pre : distribution A) : Prop :=
  forall n, (1 <= n <= List.length pre)%nat ->
            geb A (cumulative (firstn n pre)) target = false.

(** The running sum is at least [target] after some bracket of [d]. *)
Definition reaches (target : num A) (d : distribution A) : Prop :=
  exists n, (1 <= n <= List.length d)%nat
            /\ geb A (cumulative (firstn n d)) target = true.

End Arith.

(** [v] is the integer nearest to [q], the even one of two equally near. *)
Definition nearest_even (v : Z) (q : Q) : Prop :=
  Qabs (inject_Z v - q) <= 1 # 2
  /\ (Qabs (inject_Z v - q) == 1 # 2 -> Z.even v = true).

(** What the proofs below use of an arithmetic. *)
Record laws (A : arith) : Prop := mk_laws {
  add_zero_geb :
    forall c p t, is_zero A p = true -> geb A (add A c p) t = geb A c t;
  mul_comm : forall x y, mul A x y = mul A y x;
  round_nearest :
    forall x v, round A x = Ok v ->
                exists q, value A x = Some q /\ nearest_even v q;
  round_finite :
    forall x q, value A x = Some q -> exists v, round A x = Ok v;
  round_raises :
    forall x e, round A x = Raise e -> e = OverflowError \/ e = ValueError;
  zero_below_25 : geb A (of_int A 0) (of_int A 25) = false;
  gtb_zero :
    forall x, gtb A x (of_int A 0) = true -> is_zero A x = false
}.

(** Numbers as exact rationals. *)
Definition exact : arith :=
  {| num := Q;
     of_int := inject_Z;
     one_and_half := 1.5;
     add := Qplus;
     sub := Qminus;
     mul := Qmult;
     quotient := Qdiv;
     geb := fun x y => Qle_bool y x;
     gtb := fun x y => negb (Qle_bool x y);
     is_zero := fun x => Qeq_bool x 0;
     round := fun x => Ok (py_round x);
     value := fun x => Some x |}.

(** Python's [float]: IEEE 754 binary64, rounding to nearest, ties to
    even.  An [int] that the scripts compute with is read as the float of
    the same value, which is exact below 2^53. *)
Definition prec : Z := 53.
Definition emax : Z := 1024.

Definition float_of_int (z : Z) : spec_float :=
  binary_normalize prec emax z 0 false.

(** The float literal [m / 10^digits] as Python reads it, the binary64
    nearest to it, for [m] and [10^digits] below 2^53: [decimal 54 1] is
    [5.4]. *)
Definition decimal (m : Z) (digits : nat) : spec_float :=
  SFdiv prec emax (float_of_int m) (float_of_int (10 ^ Z.of_nat digits)).

Definition float_value (x : spec_float) : option Q :=
  match x with
  | S754_zero _ => Some 0
  | S754_finite s m e =>
      Some ((if s then - inject_Z (Zpos m) else inject_Z (Zpos m)) * Qpower 2 e)
  | S754_infinity _ => None
  | S754_nan => None
  end.

(** [round(x)]: [OverflowError] for an infinity, [ValueError] for a
    NaN. *)
Definition float_round (x : spec_float) : result Z :=
  match x with
  | S754_infinity _ => Raise OverflowError
  | S754_nan => Raise ValueError
  | _ => match float_value x with
         | Some q => Ok (py_round q)
         | None => Raise ValueError
         end
  end.

Definition binary64 : arith :=
  {| num := spec_float;
     of_int := float_of_int;
     one_and_half := decimal 15 1;
     add := SFadd prec emax;
     sub := SFsub prec emax;
     mul := SFmul prec emax;
     quotient := SFdiv prec emax;
     geb := fun x y => SFleb y x;
     gtb := fun x y => SFltb y x;
     is_zero := fun x => SFeqb x (S754_zero false);
     round := float_round;
     value := float_value |}.

(** A bracket whose share is a float. *)
Definition bracket64 (label : string) (share : spec_float) : bracket binary64 :=
  @mk_bracket binary64 label share.

End Py.

(** *** fetch_statscan_income.py *)

Module PyFetch.

Import PyStr.

Section Arith.

Variable A : Py.arith.

Definition extract_minimum_of_range (range_str : string) : option (Py.num A) :=
  let clean_str := Fetch.clean range_str in
  if Fetch.is_under clean_str then
    match findall_digits clean_str with
    | _ :: _ => Some (Py.of_int A 0)
    | [] => None
    end
  else if Fetch.is_over clean_str then
    match findall_digits clean_str with
    | n0 :: _ => Some (Py.of_int A (int_of_digits n0))
    | [] => None
    end
  else
    match findall_digits clean_str with
    | n0 :: _ => Some (Py.of_int A (int_of_digits n0))
    | [] => None
    end.

Definition extract_maximum_of_range (range_str : string) : option (Py.num A) :=
  let clean_str := Fetch.clean range_str in
  if Fetch.is_under clean_str then
    match findall_digits clean_str with
    | n0 :: _ => Some (Py.of_int A (int_of_digits n0))
    | [] => None
    end
  else if Fetch.is_over clean_str then
    match findall_digits clean_str with
    | n0 :: _ => Some (Py.mul A (Py.of_int A (int_of_digits n0)) (Py.of_int A 2))
    | [] => None
    end
  else
    match findall_digits clean_str with
    | _ :: n1 :: _ => Some (Py.of_int A (int_of_digits n1))
    | [n0] => Some (Py.of_int A (int_of_digits n0))
    | [] => None
    end.

Definition after_loop (d : Py.distribution A) : Py.num A :=
  match Py.last_bracket A d with
  | Some b => Py.or_zero A (extract_maximum_of_range (Py.range b))
  | None => Py.of_int A 0
  end.

Fixpoint percentile_loop (target cumulative_pct : Py.num A) (d : Py.distribution A)
  : option (Py.num A) :=
  match d with
  | [] => None
  | b :: rest =>
      let cumulative_pct := Py.add A cumulative_pct (Py.percentage b) in
      if Py.geb A cumulative_pct target
      then Some (Py.or_zero A (extract_minimum_of_range (Py.range b)))
      else percentile_loop target cumulative_pct rest
  end.

Definition percentile_threshold_at (target : Py.num A) (d : Py.distribution A)
  : Py.num A :=
  match percentile_loop target (Py.of_int A 0) d with
  | Some v => v
  | None => after_loop d
  end.

Definition calculate_75th_percentile_threshold_from_distribution
  (d : Py.distribution A) : Py.num A :=
  percentile_threshold_at (Py.of_int A 75) d.

(** The threshold that is rounded, with the operands in the order of the
    source. *)
Definition threshold (min_income max_income bracket_share : Py.num A) : Py.num A :=
  Py.add A min_income (Py.mul A (Py.sub A max_income min_income) bracket_share).

Definition interpolate (target cumulative_pct : Py.num A) (b : Py.bracket A)
  : result (Py.num A) :=
  let remaining_pct := Py.sub A target cumulative_pct in
  match Py.div A remaining_pct (Py.percentage b) with
  | Raise e => Raise e
  | Ok bracket_share =>
      let min_income := extract_minimum_of_range (Py.range b) in
      let max_income := extract_maximum_of_range (Py.range b) in
      match min_income, max_income with
      | Some mn, Some mx =>
          match Py.round A (threshold mn mx bracket_share) with
          | Ok v => Ok (Py.of_int A v)
          | Raise e => Raise e
          end
      | _, _ => Ok (Py.or_zero A min_income)
      end
  end.

Fixpoint interpolated_loop (target cumulative_pct : Py.num A) (d : Py.distribution A)
  : option (result (Py.num A)) :=
  match d with
  | [] => None
  | b :: rest =>
      if Py.geb A (Py.add A cumulative_pct (Py.percentage b)) target
      then Some (interpolate target cumulative_pct b)
      else interpolated_loop target (Py.add A cumulative_pct (Py.percentage b)) rest
  end.

Definition interpolated_threshold_at (target : Py.num A) (d : Py.distribution A)
  : result (Py.num A) :=
  match interpolated_loop target (Py.of_int A 0) d with
  | Some r => r
  | None => Ok (after_loop d)
  end.

Definition calculate_bottom_25_threshold_from_distribution
  (d : Py.distribution A) : result (Py.num A) :=
  interpolated_threshold_at (Py.of_int A 25) d.

Record income_statistics : Type := mk_income_statistics {
  average : Py.num A;
  median : Py.num A;
  top_75_percentile_threshold : Py.num A;
  bottom_25_threshold : Py.num A;
  ratio_median_to_avg : Py.num A;
  geo : Fetch.geo_info
}.

(** [median_income / avg_income if avg_income > 0 else 0] *)
Definition ratio (median_income avg_income : Py.num A) : result (Py.num A) :=
  if Py.gtb A avg_income (Py.of_int A 0)
  then Py.div A median_income avg_income
  else Ok (Py.of_int A 0).

(** [calculate_income_statistics], without its printing. *)
Definition calculate_income_statistics (data : Py.income_data A)
  : result income_statistics :=
  let avg_income := get_or (Py.average_household_income data) (Py.of_int A 0) in
  let median_income := get_or (Py.median_household_income data) (Py.of_int A 0) in
  let top_75_percentile_threshold :=
    calculate_75th_percentile_threshold_from_distribution
      (get_or (Py.income_distribution data) []) in
  match calculate_bottom_25_threshold_from_distribution
          (get_or (Py.income_distribution data) []) with
  | Raise e => Raise e
  | Ok bottom_25_threshold =>
      match ratio median_income avg_income with
      | Raise e => Raise e
      | Ok ratio_median_to_avg =>
          Ok (mk_income_statistics
                avg_income median_income top_75_percentile_threshold
                bottom_25_threshold ratio_median_to_avg
                (Fetch.mk_geo_info (Py.geo_code data) (Py.geo_name data)
                                   (Py.total_population data)))
      end
  end.

End Arith.

(** [get_sample_toronto_income_data()['income_distribution']], shares as
    floats. *)
Definition sample_toronto_distribution : Py.distribution Py.binary64 :=
  [ Py.bracket64 "Under $10,000" (Py.decimal 54 1);
    Py.bracket64 "$10,000 to $19,999" (Py.decimal 71 1);
    Py.bracket64 "$20,000 to $29,999" (Py.decimal 83 1);
    Py.bracket64 "$30,000 to $39,999" (Py.decimal 89 1);
    Py.bracket64 "$40,000 to $49,999" (Py.decimal 92 1);
    Py.bracket64 "$50,000 to $59,999" (Py.decimal 90 1);
    Py.bracket64 "$60,000 to $69,999" (Py.decimal 84 1);
    Py.bracket64 "$70,000 to $79,999" (Py.decimal 76 1);
    Py.bracket64 "$80,000 to $89,999" (Py.decimal 66 1);
    Py.bracket64 "$90,000 to $99,999" (Py.decimal 57 1);
    Py.bracket64 "$100,000 to $149,999" (Py.decimal 136 1);
    Py.bracket64 "$150,000 to $199,999" (Py.decimal 73 1);
    Py.bracket64 "$200,000 and over" (Py.decimal 29 1) ].

(** The five brackets on whose shares, 10.0, 25.3, 28.9, 10.8 and 25.0,
    the running sum of the floats after four brackets is
    74.999999999999986, below 75, where the exact sum is 75. *)
Definition shares_rounding_below_75 : Py.distribution Py.binary64 :=
  [ Py.bracket64 "Under $10,000" (Py.decimal 100 1);
    Py.bracket64 "$10,000 to $19,999" (Py.decimal 253 1);
    Py.bracket64 "$20,000 to $29,999" (Py.decimal 289 1);
    Py.bracket64 "$30,000 to $39,999" (Py.decimal 108 1);
    Py.bracket64 "$40,000 and over" (Py.decimal 250 1) ].

(** [get_sample_toronto_income_data()] *)
Definition sample_toronto_income_data : Py.income_data Py.binary64 :=
  @Py.mk_income_data Py.binary64
    (Some "535") (Some "Toronto CMA") (Some 6448451%Z)
    (Some (Py.float_of_int 77000)) (Some (Py.float_of_int 96000))
    (Some sample_toronto_distribution).

(** The four brackets on whose shares, 7.1, 9.2, 8.7 and 75.0, the running
    sum of the floats after three brackets is 24.999999999999996, below
    25, where the exact sum is 25. *)
Definition shares_rounding_below_25 : Py.distribution Py.binary64 :=
  [ Py.bracket64 "Under $10,000" (Py.decimal 71 1);
    Py.bracket64 "$10,000 to $19,999" (Py.decimal 92 1);
    Py.bracket64 "$20,000 to $29,999" (Py.decimal 87 1);
    Py.bracket64 "$30,000 to $39,999" (Py.decimal 750 1) ].

(** Two brackets on whose shares, 19.1 and 11.8, the exact interpolation
    at 25 is the tie 14999.5 and the floats give 14999.499999999998. *)
Definition shares_rounding_below_tie : Py.distribution Py.binary64 :=
  [ Py.bracket64 "Under $10,000" (Py.decimal 191 1);
    Py.bracket64 "$10,000 to $19,999" (Py.decimal 118 1) ].

End PyFetch.

(** *** statscan_income_analyzer.py *)

Module PyAnalyzer.

Import PyStr.

Section Arith.

Variable A : Py.arith.

Definition extract_midpoint_of_range (range_str : string) : option (Py.num A) :=
  let clean_str := Analyzer.clean range_str in
  match findall_digits clean_str with
  | [n0; n1] =>
      let low := int_of_digits n0 in
      let high := int_of_digits n1 in
      Some (Py.quotient A (Py.of_int A (low + high)) (Py.of_int A 2))
  | [n0] =>
      let value := Py.of_int A (int_of_digits n0) in
      if contains "<" clean_str then Some (Py.quotient A value (Py.of_int A 2))
      else if contains ">" clean_str || contains "+" clean_str
           then Some (Py.mul A value (Py.one_and_half A))
           else Some value
  | _ => None
  end.

(** [if mid_point:] *)
Definition truthy (mid_point : option (Py.num A)) : bool :=
  match mid_point with
  | Some m => negb (Py.is_zero A m)
  | None => false
  end.

Definition average_step (acc : Py.num A * Py.num A) (b : Py.bracket A)
  : Py.num A * Py.num A :=
  let mid_point := extract_midpoint_of_range (Py.range b) in
  if truthy mid_point
  then (Py.add A (fst acc) (Py.mul A (Py.or_zero A mid_point) (Py.percentage b)),
        Py.add A (snd acc) (Py.percentage b))
  else acc.

Definition estimate_average_from_distribution (d : Py.distribution A)
  : result (Py.num A) :=
  let totals := fold_left average_step d (Py.of_int A 0, Py.of_int A 0) in
  let total_weighted_income := fst totals in
  let total_percentage := snd totals in
  if Py.gtb A total_percentage (Py.of_int A 0)
  then Py.div A total_weighted_income total_percentage
  else Ok (Py.of_int A 0).

Definition at_crossing (b : Py.bracket A) : option (result (Py.num A)) :=
  let clean_str := Analyzer.clean (Py.range b) in
  let numbers := findall_digits clean_str in
  if contains "<" clean_str then
    match numbers with
    | n0 :: _ => Some (Ok (Py.of_int A (int_of_digits n0)))
    | [] => Some (Raise IndexError)
    end
  else
    match numbers with
    | n0 :: _ => Some (Ok (Py.of_int A (int_of_digits n0)))
    | [] => None
    end.

Fixpoint top_loop (target cumulative_pct : Py.num A) (d : Py.distribution A)
  : option (result (Py.num A)) :=
  match d with
  | [] => None
  | b :: rest =>
      let cumulative_pct := Py.add A cumulative_pct (Py.percentage b) in
      if Py.geb A cumulative_pct target then
        match at_crossing b with
        | Some r => Some r
        | None => top_loop target cumulative_pct rest
        end
      else top_loop target cumulative_pct rest
  end.

Definition after_loop (d : Py.distribution A) : Py.num A :=
  match Py.last_bracket A d with
  | Some b =>
      match findall_digits (Analyzer.clean (Py.range b)) with
      | n0 :: _ => Py.of_int A (int_of_digits n0)
      | [] => Py.of_int A 0
      end
  | None => Py.of_int A 0
  end.

Definition top_threshold_at (target : Py.num A) (d : Py.distribution A)
  : result (Py.num A) :=
  match top_loop target (Py.of_int A 0) d with
  | Some r => r
  | None => Ok (after_loop d)
  end.

Definition calculate_top_75_threshold (d : Py.distribution A)
  : result (Py.num A) :=
  top_threshold_at (Py.of_int A 25) d.

End Arith.

(** [search_stats_can_data()['income_distribution']], shares as floats. *)
Definition sample_income_distribution : Py.distribution Py.binary64 :=
  [ Py.bracket64 "<$20,000" (Py.decimal 85 1);
    Py.bracket64 "$20,000-$39,999" (Py.decimal 121 1);
    Py.bracket64 "$40,000-$59,999" (Py.decimal 153 1);
    Py.bracket64 "$60,000-$79,999" (Py.decimal 167 1);
    Py.bracket64 "$80,000-$99,999" (Py.decimal 132 1);
    Py.bracket64 "$100,000-$149,999" (Py.decimal 184 1);
    Py.bracket64 "$150,000-$199,999" (Py.decimal 98 1);
    Py.bracket64 "$200,000+" (Py.decimal 60 1) ].

End PyAnalyzer.

(** A bracket with a rational share, as a bracket of the arithmetic
    [Py.exact]. *)
Definition exact_bracket (b : bracket) : Py.bracket Py.exact :=
  @Py.mk_bracket Py.exact (range b) (percentage b).

(** The interpolation as the specification writes it, computed in the
    arithmetic [A]: [excess = target - cumulative_before],
    [fraction = excess / share],
    [threshold = min_bound + fraction * (max_bound - min_bound)]. *)
Definition interpolation_in (A : Py.arith)
  (target cumulative_before share min_bound max_bound : Py.num A) : Py.num A :=
  let excess := Py.sub A target cumulative_before in
  let fraction := Py.quotient A excess share in
  Py.add A min_bound (Py.mul A fraction (Py.sub A max_bound min_bound)).

(** ** Scanning a distribution *)

(** [stays_below target c pre]: the loop, entered with [cumulative_pct = c],
    runs over all of [pre] without the cumulative share reaching [target]. *)
Fixpoint stays_below (target c : Q) (pre : distribution) : Prop :=
  match pre with
  | [] => True
  | b :: rest =>
      c + percentage b < target /\ stays_below target (c + percentage b) rest
  end.

(** The same, said with the prefixes of the distribution. *)
Definition prefixes_below (target : Q) (pre : distribution) : Prop :=
  forall n, (1 <= n <= List.length pre)%nat -> cumulative (firstn n pre) < target.

(** [reaches target d]: some non-empty prefix of [d] has a cumulative share
    of at least [target]. *)
Definition reaches (target : Q) (d : distribution) : Prop :=
  exists n, (1 <= n <= List.length d)%nat /\ target <= cumulative (firstn n d).

Definition non_negative (d : distribution) : Prop :=
  forall b, In b d -> 0 <= percentage b.

(** [ascending_from lo d]: every label of [d] parses, each bracket has its
    minimum at most its maximum, the first minimum is at least [lo] and
    each later minimum is at least the maximum of the bracket before. *)
Fixpoint ascending_from (lo : Q) (d : distribution) : Prop :=
  match d with
  | [] => True
  | b :: rest =>
      match Fetch.extract_minimum_of_range (range b),
            Fetch.extract_maximum_of_range (range b) with
      | Some mn, Some mx => lo <= mn /\ mn <= mx /\ ascending_from mx rest
      | _, _ => False
      end
  end.

Definition ascending (d : distribution) : Prop := ascending_from 0 d.


(** ** Predicates on labels and distributions *)

(** A token made of decimal digits only. *)
Definition all_digits (tok : string) : Prop :=
  Forall (fun a => PyStr.is_digit a = true) (list_ascii_of_string tok).

(** The label of every bracket has a minimum and a maximum whenever it
    parses, and the minimum is not above the maximum. *)
Definition bounds_ordered_in (d : distribution) : Prop :=
  forall b mn mx,
    In b d ->
    Fetch.extract_minimum_of_range (range b) = Some mn ->
    Fetch.extract_maximum_of_range (range b) = Some mx ->
    mn <= mx.

(** Every share multiplied by [k]. *)
Definition scale_shares (k : Q) (d : distribution) : distribution :=
  map (fun b => mk_bracket (range b) (k * percentage b)) d.

(** The boundary estimator of [fetch_statscan_income.py], entered with
    [cumulative_pct = c]. *)
Definition percentile_from (target c : Q) (d : distribution) : Q :=
  match Fetch.percentile_loop target c d with
  | Some v => v
  | None => Fetch.after_loop d
  end.

(** The two sums of the average estimator agree up to numeric equality. *)
Definition sums_eq (x y : Q * Q) : Prop :=
  fst x == fst y /\ snd x == snd y.

(** Every label with "<" holds a number. *)
Definition less_than_labels_numbered (d : distribution) : Prop :=
  forall b, In b d ->
    PyStr.contains "<" (Analyzer.clean (range b)) = true ->
    PyStr.findall_digits (Analyzer.clean (range b)) <> [].

(** ** The formulas of the specification *)

(** The interpolation as the specification writes it. *)
Definition interpolation_spec (target cumulative_before share min_bound max_bound : Q) : Q :=
  let excess := target - cumulative_before in
  let fraction := excess / share in
  min_bound + fraction * (max_bound - min_bound).

(** The markers of the specification: a label "matches an under/less-than
    pattern" or "an and over / plus / greater-than pattern", whatever the
    case of its letters. *)
Definition open_below_spec (clean_str : string) : bool :=
  PyStr.contains "under" (PyStr.lower clean_str)
  || PyStr.contains "less than" (PyStr.lower clean_str)
  || PyStr.contains "<" clean_str.

Definition open_above_spec (clean_str : string) : bool :=
  PyStr.contains "over" (PyStr.lower clean_str)
  || PyStr.contains "plus" (PyStr.lower clean_str)
  || PyStr.contains "+" clean_str
  || PyStr.contains "greater than" (PyStr.lower clean_str)
  || PyStr.contains ">" clean_str.

(** The bounds of a label as the specification gives them (its 4.1): with
    one number N, (0, N) for a label open below and (N, 2 N) for a label
    open above, the unbounded maximum taken as twice the number; otherwise
    (first, second) for two numbers and (N, N) for one.  The specification
    says nothing of a label with three numbers or more; no bounds are given
    for it here. *)
Definition bounds_spec (label : string) : option (Q * Q) :=
  let clean_str := Analyzer.clean label in
  match PyStr.findall_digits clean_str with
  | [n0] =>
      let n := PyStr.float_of_digits n0 in
      if open_below_spec clean_str then Some (0, n)
      else if open_above_spec clean_str then Some (n, 2 * n)
      else Some (n, n)
  | [n0; n1] => Some (PyStr.float_of_digits n0, PyStr.float_of_digits n1)
  | _ => None
  end.

(** A label that marks an open bracket with the signs that
    [statscan_income_analyzer.py] looks for, "<", ">" and "+", and with
    none of the words. *)
Definition analyzer_notation (label : string) : Prop :=
  open_below_spec (Analyzer.clean label)
  = PyStr.contains "<" (Analyzer.clean label)
  /\ open_above_spec (Analyzer.clean label)
     = (PyStr.contains ">" (Analyzer.clean label)
        || PyStr.contains "+" (Analyzer.clean label)).

Definition midpoint_spec (label : string) : option Q :=
  match bounds_spec label with
  | Some (min_bound, capped_max_bound) => Some ((min_bound + capped_max_bound) / 2)
  | None => None
  end.

Definition sums_step_spec (acc : Q * Q) (b : bracket) : Q * Q :=
  match midpoint_spec (range b) with
  | Some midpoint =>
      (fst acc + midpoint * percentage b, snd acc + percentage b)
  | None => acc
  end.

(** The average as the specification gives it: over the brackets that
    parse, the sum of midpoint * share divided by the sum of the shares,
    and 0 when that sum is 0. *)
Definition estimate_average_spec (d : distribution) : Q :=
  let sums := fold_left sums_step_spec d (0, 0) in
  if Qeq_bool (snd sums) 0 then 0 else fst sums / snd sums.

(** ** Lemmas on the scan *)

Section Scan.

Variable target : Q.

Lemma Qle_bool_false (x y : Q) : Qle_bool x y = false <-> y < x.
Proof.
  split; intro H.
  - apply Qnot_le_lt. intro Hle. apply Qle_bool_iff in Hle. congruence.
  - destruct (Qle_bool x y) eqn:E; [|reflexivity].
    apply Qle_bool_iff in E. exfalso. apply (Qlt_not_le _ _ H E).
Qed.

Lemma cumulative_from_snoc (c : Q) (pre : distribution) (b : bracket) :
  cumulative_from c (pre ++ [b]) = cumulative_from c pre + percentage b.
Proof.
  unfold cumulative_from. rewrite fold_left_app. reflexivity.
Qed.

Lemma cumulative_snoc (pre : distribution) (b : bracket) :
  cumulative (pre ++ [b]) = cumulative pre + percentage b.
Proof. apply cumulative_from_snoc. Qed.

Lemma stays_below_prefixes_from (c : Q) (pre : distribution) :
  stays_below target c pre <->
  (forall n, (1 <= n <= List.length pre)%nat ->
             cumulative_from c (firstn n pre) < target).
Proof.
  revert c. induction pre as [|b rest IH]; intro c; simpl.
  - split; [intros _ n Hn; lia | trivial].
  - split.
    + intros [Hb Hrest] n Hn. destruct n as [|n]; [lia|]. simpl.
      destruct n as [|n]; [simpl; exact Hb|].
      apply (proj1 (IH _) Hrest (S n)). simpl in Hn. lia.
    + intro H. split.
      * apply (H 1%nat). simpl. lia.
      * apply IH. intros n Hn. apply (H (S n)). simpl. lia.
Qed.

Lemma stays_below_prefixes (pre : distribution) :
  stays_below target 0 pre <-> prefixes_below target pre.
Proof. apply stays_below_prefixes_from. Qed.



(** A distribution that reaches the target splits at the first bracket
    that does. *)
Lemma first_crossing_from (c : Q) (d : distribution) :
  (exists n, (1 <= n <= List.length d)%nat /\
             target <= cumulative_from c (firstn n d)) ->
  exists pre b post,
    d = pre ++ b :: post /\ stays_below target c pre /\
    target <= cumulative_from c pre + percentage b.
Proof.
  revert c. induction d as [|b rest IH]; intros c [n [Hn Hreach]].
  - simpl in Hn. lia.
  - destruct (Qlt_le_dec (c + percentage b) target) as [Hlt|Hge].
    + destruct n as [|n]; [lia|]. simpl in Hreach.
      destruct n as [|n].
      * simpl in Hreach. exfalso. apply (Qlt_not_le _ _ Hlt Hreach).
      * destruct (IH (c + percentage b)) as (pre & b' & post & Hd & Hpre & Hb').
        { exists (S n). split; [simpl in Hn; lia | exact Hreach]. }
        exists (b :: pre), b', post. subst rest. simpl. repeat split; assumption.
    + exists [], b, rest. simpl. repeat split. exact Hge.
Qed.

(** A distribution whose total share is at least a target above 0 reaches
    it; so does one whose shares sum to 100, for a target of at most 100. *)
Lemma total_reaches (d : distribution) :
  0 < target -> target <= cumulative d -> reaches target d.
Proof.
  intros Hpos Htot. exists (List.length d). split.
  - destruct d as [|b rest]; [|simpl; lia].
    exfalso. unfold cumulative, cumulative_from in Htot. simpl in Htot. lra.
  - rewrite firstn_all. exact Htot.
Qed.

Lemma sum_100_reaches (d : distribution) :
  0 < target -> target <= 100 -> cumulative d == 100 -> reaches target d.
Proof.
  intros Hpos Hle Hsum. apply total_reaches; [exact Hpos|]. rewrite Hsum. exact Hle.
Qed.

End Scan.

(** ** The loops, at and before the first crossing *)

Section Loops.

Variable target : Q.

Lemma percentile_loop_crossing (c : Q) (pre post : distribution) (b : bracket) :
  stays_below target c pre ->
  target <= cumulative_from c pre + percentage b ->
  Fetch.percentile_loop target c (pre ++ b :: post)
  = Some (or_zero (Fetch.extract_minimum_of_range (range b))).
Proof.
  revert c. induction pre as [|a rest IH]; intros c Hpre Hb; simpl in *.
  - apply Qle_bool_iff in Hb. rewrite Hb. reflexivity.
  - destruct Hpre as [Ha Hrest].
    apply Qle_bool_false in Ha. rewrite Ha. apply IH; assumption.
Qed.


Lemma interpolated_loop_crossing (c : Q) (pre post : distribution) (b : bracket) :
  stays_below target c pre ->
  target <= cumulative_from c pre + percentage b ->
  Fetch.interpolated_loop target c (pre ++ b :: post)
  = Some (Fetch.interpolate target (cumulative_from c pre) b).
Proof.
  revert c. induction pre as [|a rest IH]; intros c Hpre Hb; simpl in *.
  - apply Qle_bool_iff in Hb. rewrite Hb. reflexivity.
  - destruct Hpre as [Ha Hrest].
    apply Qle_bool_false in Ha. rewrite Ha. apply IH; assumption.
Qed.


Lemma top_loop_crossing (c : Q) (pre post : distribution) (b : bracket)
      (n0 : string) (ns : list string) :
  stays_below target c pre ->
  target <= cumulative_from c pre + percentage b ->
  PyStr.findall_digits (Analyzer.clean (range b)) = n0 :: ns ->
  Analyzer.top_loop target c (pre ++ b :: post)
  = Some (Ok (inject_Z (PyStr.int_of_digits n0))).
Proof.
  revert c. induction pre as [|a rest IH]; intros c Hpre Hb Hnum; simpl in *.
  - apply Qle_bool_iff in Hb. rewrite Hb.
    unfold Analyzer.at_crossing. rewrite Hnum.
    destruct (PyStr.contains "<" (Analyzer.clean (range b))); reflexivity.
  - destruct Hpre as [Ha Hrest].
    apply Qle_bool_false in Ha. rewrite Ha. apply IH; assumption.
Qed.


End Loops.

(** ** Rounding *)

Lemma py_round_comp (x y : Q) : x == y -> py_round x = py_round y.
Proof.
  intro H. unfold py_round.
  rewrite (Qfloor_comp _ _ H).
  assert (E : x - inject_Z (Qfloor y) == y - inject_Z (Qfloor y)) by (rewrite H; reflexivity).
  rewrite (Qcompare_comp _ _ E _ _ (Qeq_refl (1 # 2))). reflexivity.
Qed.

Lemma py_round_inject_Z (z : Z) : py_round (inject_Z z) = z.
Proof.
  unfold py_round. rewrite Qfloor_Z.
  destruct (Qcompare_spec (inject_Z z - inject_Z z) (1 # 2)) as [E|E|E];
    [exfalso; lra | reflexivity | exfalso; lra].
Qed.

Lemma py_round_bounds (x : Q) :
  (Qfloor x <= py_round x <= Qfloor x + 1)%Z.
Proof.
  unfold py_round.
  destruct (Qcompare (x - inject_Z (Qfloor x)) (1 # 2)); try lia.
  destruct (Z.even (Qfloor x)); lia.
Qed.

Lemma py_round_le (x y : Q) : x <= y -> (py_round x <= py_round y)%Z.
Proof.
  intro Hxy.
  pose proof (Qfloor_resp_le _ _ Hxy) as Hf.
  destruct (Z.eq_dec (Qfloor x) (Qfloor y)) as [E|NE].
  - unfold py_round. rewrite <- E.
    destruct (Qcompare_spec (x - inject_Z (Qfloor x)) (1 # 2)) as [Cx|Cx|Cx];
      destruct (Qcompare_spec (y - inject_Z (Qfloor x)) (1 # 2)) as [Cy|Cy|Cy];
      try (destruct (Z.even (Qfloor x)); lia); try lia; exfalso; lra.
  - pose proof (py_round_bounds x). pose proof (py_round_bounds y). lia.
Qed.

(** Rounding does not cross an integer. *)
Lemma py_round_le_Z (x : Q) (z : Z) :
  x <= inject_Z z -> (py_round x <= z)%Z.
Proof.
  intro H. rewrite <- (py_round_inject_Z z). apply py_round_le. exact H.
Qed.

Lemma py_round_ge_Z (x : Q) (z : Z) :
  inject_Z z <= x -> (z <= py_round x)%Z.
Proof.
  intro H. rewrite <- (py_round_inject_Z z). apply py_round_le. exact H.
Qed.

(** ** Boundary mode *)

(** ** Interpolated mode *)

(** The share of the first bracket that reaches a target above 0 is above 0. *)
Lemma crossing_share_positive (target c : Q) (pre : distribution) (b : bracket) :
  c < target ->
  stays_below target c pre ->
  target <= cumulative_from c pre + percentage b ->
  cumulative_from c pre < target /\ 0 < percentage b.
Proof.
  intros Hc Hpre Hb.
  assert (Hlt : cumulative_from c pre < target).
  { destruct pre as [|a rest]; [exact Hc|].
    rewrite <- (firstn_all (a :: rest)).
    apply (proj1 (stays_below_prefixes_from target c (a :: rest)) Hpre).
    simpl. lia. }
  split; [exact Hlt | lra].
Qed.

Lemma Qeq_bool_false_of_pos (x : Q) : 0 < x -> Qeq_bool x 0 = false.
Proof.
  intro H. destruct (Qeq_bool x 0) eqn:E; [|reflexivity].
  apply Qeq_bool_iff in E. exfalso. lra.
Qed.

(** On the sample distribution the 25% threshold is 34719. *)
Example bottom_25_sample :
  Fetch.calculate_bottom_25_threshold_from_distribution
    Fetch.sample_toronto_distribution = Ok 34719.
Proof. reflexivity. Qed.

(** The loop of the interpolated estimator never raises when it is entered
    below a target. *)
Lemma interpolated_loop_ok (target c : Q) (d : distribution) (r : result Q) :
  c < target ->
  Fetch.interpolated_loop target c d = Some r ->
  exists v, r = Ok v.
Proof.
  revert c. induction d as [|b rest IH]; intros c Hc Hr; simpl in Hr.
  - discriminate.
  - destruct (Qle_bool target (c + percentage b)) eqn:E.
    + injection Hr as <-. apply Qle_bool_iff in E.
      unfold Fetch.interpolate.
      rewrite Qeq_bool_false_of_pos by lra.
      destruct (Fetch.extract_minimum_of_range (range b));
        destruct (Fetch.extract_maximum_of_range (range b)); eexists; reflexivity.
    + apply Qle_bool_false in E. apply (IH _ E Hr).
Qed.

(** C8.  For a target above 0 (25 in the source) the interpolated
    estimator never fails on a division by zero: it returns a value on
    every distribution, because the bracket at which the cumulative share
    first reaches the target, the only one whose share is a divisor, has a
    share above 0.  Shares of other brackets may be 0 (or anything). *)
Theorem interpolated_mode_no_division_by_zero :
  forall (target : Q) (d : distribution),
    0 < target ->
    (exists v, Fetch.interpolated_threshold_at target d = Ok v)
    /\ Fetch.interpolated_threshold_at target d <> Raise ZeroDivisionError
    /\ (forall pre b post,
           d = pre ++ b :: post ->
           prefixes_below target pre ->
           target <= cumulative (pre ++ [b]) ->
           0 < percentage b).
Proof.
  intros target d Hpos.
  assert (Hok : exists v, Fetch.interpolated_threshold_at target d = Ok v).
  { unfold Fetch.interpolated_threshold_at.
    destruct (Fetch.interpolated_loop target 0 d) as [r|] eqn:E.
    - apply (interpolated_loop_ok target 0 d r Hpos E).
    - eexists; reflexivity. }
  split; [exact Hok|]. split.
  - destruct Hok as [v Hv]. rewrite Hv. discriminate.
  - intros pre b post _ Hpre Hb.
    apply stays_below_prefixes in Hpre. rewrite cumulative_snoc in Hb.
    apply (crossing_share_positive target 0 pre b Hpos Hpre Hb).
Qed.

Lemma interpolated_mode_no_division_by_zero_witness :
  let d := [mk_bracket "$0 to $9,999" 0; mk_bracket "$10,000 to $19,999" 25;
            mk_bracket "$20,000 to $29,999" 0; mk_bracket "$30,000 and over" 75] in
  (exists v, Fetch.interpolated_threshold_at 25 d = Ok v)
  /\ Fetch.interpolated_threshold_at 25 d <> Raise ZeroDivisionError
  /\ (forall pre b post,
         d = pre ++ b :: post ->
         prefixes_below 25 pre ->
         25 <= cumulative (pre ++ [b]) ->
         0 < percentage b).
Proof.
  apply (interpolated_mode_no_division_by_zero 25). reflexivity.
Defined.

(** ** The two "top 75%" thresholds *)

(** C3.  On the sample distribution of [fetch_statscan_income.py] the
    75th-percentile function returns 90000 and [calculate_top_75_threshold]
    returns 30000; on the sample of [statscan_income_analyzer.py] they
    return 100000 and 40000.  The two functions are not equal. *)
Theorem top_75_implementations_differ :
  Fetch.calculate_75th_percentile_threshold_from_distribution
    Fetch.sample_toronto_distribution = 90000
  /\ Analyzer.calculate_top_75_threshold Fetch.sample_toronto_distribution
     = Ok 30000
  /\ Fetch.calculate_75th_percentile_threshold_from_distribution
       Analyzer.sample_income_distribution = 100000
  /\ Analyzer.calculate_top_75_threshold Analyzer.sample_income_distribution
     = Ok 40000
  /\ exists d v,
       Analyzer.calculate_top_75_threshold d = Ok v
       /\ ~ v == Fetch.calculate_75th_percentile_threshold_from_distribution d.
Proof.
  repeat split; try reflexivity.
  exists Fetch.sample_toronto_distribution, 30000.
  split; [reflexivity | vm_compute; discriminate].
Qed.

(** ** The empty distribution *)

(** C9.  On the empty distribution each estimator returns 0: the two
    percentile functions of [fetch_statscan_income.py], the percentile
    function and the average estimator of [statscan_income_analyzer.py];
    none raises. *)
Theorem empty_distribution_returns_zero :
  Fetch.calculate_75th_percentile_threshold_from_distribution [] = 0
  /\ Fetch.calculate_bottom_25_threshold_from_distribution [] = Ok 0
  /\ Analyzer.calculate_top_75_threshold [] = Ok 0
  /\ Analyzer.estimate_average_from_distribution [] = 0.
Proof. repeat split. Qed.

(** ** The range parser *)

(** Where the range parser does what the specification says.  A label with
    no "under" and no "over" or
    final "+" marker maps to (first number, second number) when it holds
    two numbers and to (number, number) when it holds one;
    "Under $10,000" maps to (0, 10000), "$50,000 to $79,999" to
    (50000, 79999), and "$200,000 and over" to (200000, 2 * 200000), that
    is (200000, 400000). *)
Theorem range_parser_bounds :
  (forall s : string,
      Fetch.is_under (Fetch.clean s) = false ->
      Fetch.is_over (Fetch.clean s) = false ->
      match PyStr.findall_digits (Fetch.clean s) with
      | [n0; n1] =>
          Fetch.extract_minimum_of_range s = Some (PyStr.float_of_digits n0)
          /\ Fetch.extract_maximum_of_range s = Some (PyStr.float_of_digits n1)
      | [n0] =>
          Fetch.extract_minimum_of_range s = Some (PyStr.float_of_digits n0)
          /\ Fetch.extract_maximum_of_range s = Some (PyStr.float_of_digits n0)
      | _ => True
      end)
  /\ Fetch.extract_minimum_of_range "Under $10,000" = Some 0
  /\ Fetch.extract_maximum_of_range "Under $10,000" = Some 10000
  /\ Fetch.extract_minimum_of_range "$50,000 to $79,999" = Some 50000
  /\ Fetch.extract_maximum_of_range "$50,000 to $79,999" = Some 79999
  /\ Fetch.extract_minimum_of_range "$200,000 and over" = Some 200000
  /\ Fetch.extract_maximum_of_range "$200,000 and over" = Some (200000 * 2)
  /\ 200000 * 2 == 400000.
Proof.
  split; [|repeat split].
  intros s Hu Ho.
  unfold Fetch.extract_minimum_of_range, Fetch.extract_maximum_of_range.
  rewrite Hu, Ho.
  destruct (PyStr.findall_digits (Fetch.clean s)) as [|n0 [|n1 [|n2 ns]]];
    try exact I; split; reflexivity.
Qed.

Lemma range_parser_bounds_witness :
  Fetch.extract_minimum_of_range "$70,000 - $79,999" = Some 70000
  /\ Fetch.extract_maximum_of_range "$70,000 - $79,999" = Some 79999.
Proof.
  exact (proj1 range_parser_bounds "$70,000 - $79,999" eq_refl eq_refl).
Defined.

(** C4.  The range parser does not map every label with two numbers to
    (first number, second number): it looks for the word "under" anywhere
    in the label before it counts the numbers, and
    "$10,000 to under $20,000", which holds the numbers 10000 and 20000
    and whose bounds are (10000, 20000) by the specification (see
    [bounds_spec_examples]), maps to (0, 10000). *)
Lemma range_parser_marker_precedes_two_numbers :
  PyStr.findall_digits (Fetch.clean "$10,000 to under $20,000")
  = ["10000"; "20000"]
  /\ Fetch.extract_minimum_of_range "$10,000 to under $20,000" = Some 0
  /\ Fetch.extract_maximum_of_range "$10,000 to under $20,000" = Some 10000
  /\ Fetch.extract_minimum_of_range "$10,000 to under $20,000"
     <> Some (PyStr.float_of_digits "10000")
  /\ Fetch.extract_maximum_of_range "$10,000 to under $20,000"
     <> Some (PyStr.float_of_digits "20000").
Proof. repeat split; vm_compute; discriminate. Qed.

(** ** A scan that never reaches the target *)






(** ** Labels without a number *)

Lemma average_step_skips (acc : Q * Q) (b : bracket) :
  Analyzer.extract_midpoint_of_range (range b) = None ->
  Analyzer.average_step acc b = acc.
Proof. intro H. unfold Analyzer.average_step. rewrite H. reflexivity. Qed.

(** ** The average estimator *)

(** On a label in the notation of the analyzer, the midpoint of the code
    is the midpoint of the specification. *)
Lemma extract_midpoint_is_midpoint_spec (label : string) :
  analyzer_notation label ->
  match Analyzer.extract_midpoint_of_range label, midpoint_spec label with
  | Some m, Some m' => m == m'
  | None, None => True
  | _, _ => False
  end.
Proof.
  intros [Hbelow Habove].
  unfold Analyzer.extract_midpoint_of_range, midpoint_spec, bounds_spec.
  rewrite Hbelow, Habove.
  destruct (PyStr.findall_digits (Analyzer.clean label)) as [|n0 [|n1 [|n2 ns]]];
    try exact I.
  - unfold PyStr.float_of_digits.
    destruct (PyStr.contains "<" (Analyzer.clean label)).
    + field.
    + destruct (PyStr.contains ">" (Analyzer.clean label)
                || PyStr.contains "+" (Analyzer.clean label)); field.
  - unfold PyStr.float_of_digits. rewrite inject_Z_plus. reflexivity.
Qed.

(** The specification's bounds on the labels of its section 8. *)
Example bounds_spec_examples :
  bounds_spec "Under $10,000" = Some (0, 10000)
  /\ bounds_spec "$50,000 to $79,999" = Some (50000, 79999)
  /\ bounds_spec "$200,000 and over" = Some (200000, 2 * 200000)
  /\ bounds_spec "<$20,000" = Some (0, 20000)
  /\ bounds_spec "$10,000 to under $20,000" = Some (10000, 20000).
Proof. repeat split. Qed.

Lemma truthy_nonzero (m : Q) : ~ m == 0 -> Analyzer.truthy (Some m) = true.
Proof.
  intro H. simpl. destruct (Qeq_bool m 0) eqn:E; [|reflexivity].
  apply Qeq_bool_iff in E. contradiction.
Qed.

Lemma average_sums_agree (d : distribution) (acc acc' : Q * Q) :
  fst acc == fst acc' -> snd acc == snd acc' ->
  (forall b, In b d -> analyzer_notation (range b)) ->
  (forall b m, In b d ->
      Analyzer.extract_midpoint_of_range (range b) = Some m -> ~ m == 0) ->
  fst (fold_left Analyzer.average_step d acc)
  == fst (fold_left sums_step_spec d acc')
  /\ snd (fold_left Analyzer.average_step d acc)
     == snd (fold_left sums_step_spec d acc').
Proof.
  revert acc acc'. induction d as [|b rest IH]; intros acc acc' Hf Hs Hnot Hnz; simpl.
  - split; assumption.
  - assert (Hrest : forall b' m, In b' rest ->
              Analyzer.extract_midpoint_of_range (range b') = Some m -> ~ m == 0).
    { intros b' m Hin. apply Hnz. right. exact Hin. }
    assert (Hnot' : forall b', In b' rest -> analyzer_notation (range b')).
    { intros b' Hin. apply Hnot. right. exact Hin. }
    pose proof (extract_midpoint_is_midpoint_spec (range b)
                  (Hnot b (or_introl eq_refl))) as Hmid.
    unfold Analyzer.average_step, sums_step_spec.
    destruct (Analyzer.extract_midpoint_of_range (range b)) as [m|] eqn:Em;
      destruct (midpoint_spec (range b)) as [m'|]; try contradiction.
    + rewrite (truthy_nonzero m (Hnz b m (or_introl eq_refl) Em)).
      apply IH; simpl;
        [rewrite Hf, Hmid | rewrite Hs | exact Hnot' | exact Hrest]; reflexivity.
    + simpl. apply IH; assumption.
Qed.

Lemma average_total_non_negative (d : distribution) (acc : Q * Q) :
  non_negative d -> 0 <= snd acc ->
  0 <= snd (fold_left Analyzer.average_step d acc).
Proof.
  revert acc. induction d as [|b rest IH]; intros acc Hnn Hacc; simpl.
  - exact Hacc.
  - apply IH.
    + intros b' Hin. apply Hnn. right. exact Hin.
    + unfold Analyzer.average_step.
      destruct (Analyzer.truthy _); [simpl|exact Hacc].
      assert (0 <= percentage b) by (apply Hnn; left; reflexivity). lra.
Qed.

(** Where the labels are in the notation of the analyzer, no bracket has a
    midpoint of 0 and no share is negative, the average of the code, in
    exact arithmetic, is the average of the specification. *)
Lemma estimate_average_agrees_with_spec (d : distribution) :
  non_negative d ->
  (forall b, In b d -> analyzer_notation (range b)) ->
  (forall b m, In b d ->
      Analyzer.extract_midpoint_of_range (range b) = Some m -> ~ m == 0) ->
  Analyzer.estimate_average_from_distribution d == estimate_average_spec d.
Proof.
  intros Hnn Hnot Hnz.
  destruct (average_sums_agree d (0, 0) (0, 0) (Qeq_refl _) (Qeq_refl _) Hnot Hnz)
    as [Hf Hs].
  pose proof (average_total_non_negative d (0, 0) Hnn (Qle_refl _)) as Hge.
  unfold Analyzer.estimate_average_from_distribution, estimate_average_spec.
  destruct (Qle_bool (snd (fold_left Analyzer.average_step d (0, 0))) 0) eqn:El.
  - apply Qle_bool_iff in El.
    assert (Ez : snd (fold_left sums_step_spec d (0, 0)) == 0) by (rewrite <- Hs; lra).
    apply Qeq_bool_iff in Ez. rewrite Ez. reflexivity.
  - apply Qle_bool_false in El.
    destruct (Qeq_bool (snd (fold_left sums_step_spec d (0, 0))) 0) eqn:Ez.
    + apply Qeq_bool_iff in Ez. exfalso. rewrite <- Hs in Ez. lra.
    + rewrite Hf, Hs. reflexivity.
Qed.

(** The example of the specification: one bracket from 0 to 100000 with a
    share of 100 has the average 50000. *)
Example estimate_average_single_bracket :
  Analyzer.estimate_average_from_distribution [mk_bracket "$0-$100,000" 100]
  == 50000
  /\ Analyzer.estimate_average_from_distribution [mk_bracket "<$100,000" 100]
     == 50000.
Proof. split; reflexivity. Qed.

(** The average is 0 when no share was added up. *)
Lemma estimate_average_zero_total (d : distribution) :
  snd (fold_left Analyzer.average_step d (0, 0)) == 0 ->
  Analyzer.estimate_average_from_distribution d = 0.
Proof.
  intro H. unfold Analyzer.estimate_average_from_distribution.
  assert (E : Qle_bool (snd (fold_left Analyzer.average_step d (0, 0))) 0 = true).
  { apply Qle_bool_iff. lra. }
  rewrite E. reflexivity.
Qed.

(** C5 on a bracket whose midpoint is 0.  The test [if mid_point:] of
    [estimate_average_from_distribution] is false for the midpoint 0 as it
    is for [None], so the bracket "$0" is skipped with its share: with 10%
    at "$0" and 90% at "$1-$99,999" the code divides 50000 * 90 by 90 and
    returns 50000, where the weighted mean over the two brackets, both of
    which parse, is 50000 * 90 / 100 = 45000. *)
Theorem estimate_average_skips_zero_midpoint :
  let d := [mk_bracket "$0" 10; mk_bracket "$1-$99,999" 90] in
  Analyzer.extract_midpoint_of_range "$0" = Some 0
  /\ Analyzer.extract_midpoint_of_range "$1-$99,999" = Some (inject_Z (1 + 99999) / 2)
  /\ Analyzer.estimate_average_from_distribution d == 50000
  /\ estimate_average_spec d == 45000
  /\ ~ Analyzer.estimate_average_from_distribution d == estimate_average_spec d.
Proof.
  cbv zeta. repeat split; try reflexivity.
  vm_compute. discriminate.
Qed.

(** A label with "<" and no number makes [calculate_top_75_threshold] read
    [numbers[0]] of an empty list once the cumulative share has reached
    25. *)
Example top_75_less_than_without_number :
  Analyzer.calculate_top_75_threshold [mk_bracket "<unknown>" 30]
  = Raise IndexError.
Proof. reflexivity. Qed.

(** ** Monotonicity of the interpolated threshold *)

(** The bounds read from a label are whole numbers. *)
Lemma extract_minimum_integral (s : string) (q : Q) :
  Fetch.extract_minimum_of_range s = Some q -> exists z, q == inject_Z z.
Proof.
  unfold Fetch.extract_minimum_of_range.
  destruct (Fetch.is_under (Fetch.clean s)); [|destruct (Fetch.is_over (Fetch.clean s))];
    destruct (PyStr.findall_digits (Fetch.clean s)) as [|n0 ns];
    intro H; try discriminate; injection H as <-.
  - exists 0%Z. reflexivity.
  - eexists. reflexivity.
  - eexists. reflexivity.
Qed.

Lemma extract_maximum_integral (s : string) (q : Q) :
  Fetch.extract_maximum_of_range s = Some q -> exists z, q == inject_Z z.
Proof.
  unfold Fetch.extract_maximum_of_range.
  destruct (Fetch.is_under (Fetch.clean s)); [|destruct (Fetch.is_over (Fetch.clean s))];
    destruct (PyStr.findall_digits (Fetch.clean s)) as [|n0 [|n1 ns]];
    intro H; try discriminate; injection H as <-;
    try (eexists; reflexivity);
    exists (PyStr.int_of_digits n0 * 2)%Z; unfold PyStr.float_of_digits;
    rewrite inject_Z_mult; reflexivity.
Qed.

Section Interpolation.

Variables (c share mn mx : Q).
Hypothesis share_pos : 0 < share.
Hypothesis bounds_ordered : mn <= mx.


Lemma fraction_bounds (p : Q) :
  c < p -> p <= c + share -> 0 <= (p - c) / share /\ (p - c) / share <= 1.
Proof.
  intros Hlo Hhi. split.
  - apply Qle_shift_div_l; [exact share_pos | lra].
  - apply Qle_shift_div_r; [exact share_pos | lra].
Qed.


Lemma interpolation_between (p : Q) :
  c < p -> p <= c + share ->
  mn <= mn + (mx - mn) * ((p - c) / share)
  /\ mn + (mx - mn) * ((p - c) / share) <= mx.
Proof.
  intros Hlo Hhi. destruct (fraction_bounds p Hlo Hhi) as [H0 H1].
  assert (0 <= (mx - mn) * ((p - c) / share)).
  { apply Qmult_le_0_compat; lra. }
  assert (0 <= (mx - mn) * (1 - (p - c) / share)).
  { apply Qmult_le_0_compat; lra. }
  split; lra.
Qed.

End Interpolation.








(** * Further properties of the code *)

(** ** Numbers in labels *)

Lemma is_digit_value (a : ascii) :
  PyStr.is_digit a = true -> (0 <= Z.of_nat (nat_of_ascii a) - 48 <= 9)%Z.
Proof.
  unfold PyStr.is_digit. intro H. apply andb_prop in H. destruct H as [H1 H2].
  apply Nat.leb_le in H1. apply Nat.leb_le in H2. lia.
Qed.

Lemma int_of_digits_fold_non_negative (l : list ascii) (acc : Z) :
  Forall (fun a => PyStr.is_digit a = true) l ->
  (0 <= acc)%Z ->
  (0 <= fold_left (fun acc a => acc * 10 + (Z.of_nat (nat_of_ascii a) - 48)) l acc)%Z.
Proof.
  revert acc. induction l as [|a rest IH]; intros acc Hl Hacc; simpl; [exact Hacc|].
  inversion Hl as [|x xs Ha Hrest]; subst.
  apply IH; [exact Hrest|]. pose proof (is_digit_value a Ha). lia.
Qed.

Lemma int_of_digits_non_negative (tok : string) :
  all_digits tok -> (0 <= PyStr.int_of_digits tok)%Z.
Proof.
  intro H. unfold PyStr.int_of_digits.
  apply int_of_digits_fold_non_negative; [exact H | lia].
Qed.

(** The tokens of [re.findall(r'\d+', s)] are non-empty runs of digits. *)
Lemma findall_digits_aux_tokens (s : string) :
  forall (cur : list ascii) (tok : string),
    Forall (fun a => PyStr.is_digit a = true) cur ->
    In tok (PyStr.findall_digits_aux cur s) ->
    all_digits tok /\ tok <> EmptyString.
Proof.
  assert (Hrun : forall cur : list ascii,
             cur <> [] ->
             Forall (fun a => PyStr.is_digit a = true) cur ->
             all_digits (string_of_list_ascii (rev cur))
             /\ string_of_list_ascii (rev cur) <> EmptyString).
  { intros cur Hne Hcur. split.
    - unfold all_digits. rewrite list_ascii_of_string_of_list_ascii.
      apply Forall_rev. exact Hcur.
    - intro E. apply (f_equal list_ascii_of_string) in E.
      rewrite list_ascii_of_string_of_list_ascii in E. simpl in E.
      apply (f_equal (@rev ascii)) in E. rewrite rev_involutive in E.
      simpl in E. contradiction. }
  induction s as [|a rest IH]; intros cur tok Hcur Hin; simpl in Hin.
  - destruct cur as [|c cur']; [contradiction|].
    destruct Hin as [<-|[]]. apply Hrun; [discriminate | exact Hcur].
  - destruct (PyStr.is_digit a) eqn:Ea.
    + apply (IH (a :: cur) tok); [constructor; assumption | exact Hin].
    + destruct cur as [|c cur'].
      * apply (IH [] tok); [constructor | exact Hin].
      * destruct Hin as [<-|Hin].
        -- apply Hrun; [discriminate | exact Hcur].
        -- apply (IH [] tok); [constructor | exact Hin].
Qed.

Lemma findall_digits_tokens (s tok : string) :
  In tok (PyStr.findall_digits s) -> all_digits tok /\ tok <> EmptyString.
Proof. apply findall_digits_aux_tokens. constructor. Qed.

Lemma float_of_token_non_negative (s tok : string) :
  In tok (PyStr.findall_digits s) -> 0 <= PyStr.float_of_digits tok.
Proof.
  intro H. destruct (findall_digits_tokens s tok H) as [Hd _].
  unfold PyStr.float_of_digits.
  change 0 with (inject_Z 0). rewrite <- Zle_Qle.
  apply int_of_digits_non_negative. exact Hd.
Qed.

(** ** The range parser: what parses, and to what *)

(** X1.  [extract_minimum_of_range] and [extract_maximum_of_range] succeed
    on the same labels: each returns [None] exactly when the label, once
    "$" and "," are removed, holds no digit. *)
Theorem range_bounds_parse_together :
  forall s : string,
    (Fetch.extract_minimum_of_range s = None
     <-> PyStr.findall_digits (Fetch.clean s) = [])
    /\ (Fetch.extract_maximum_of_range s = None
        <-> PyStr.findall_digits (Fetch.clean s) = [])
    /\ (Fetch.extract_minimum_of_range s = None
        <-> Fetch.extract_maximum_of_range s = None).
Proof.
  intro s.
  assert (Hmin : Fetch.extract_minimum_of_range s = None
                 <-> PyStr.findall_digits (Fetch.clean s) = []).
  { unfold Fetch.extract_minimum_of_range.
    destruct (Fetch.is_under (Fetch.clean s));
      [|destruct (Fetch.is_over (Fetch.clean s))];
      destruct (PyStr.findall_digits (Fetch.clean s)) as [|n0 ns];
      split; intro H; try reflexivity; discriminate. }
  assert (Hmax : Fetch.extract_maximum_of_range s = None
                 <-> PyStr.findall_digits (Fetch.clean s) = []).
  { unfold Fetch.extract_maximum_of_range.
    destruct (Fetch.is_under (Fetch.clean s));
      [|destruct (Fetch.is_over (Fetch.clean s))];
      destruct (PyStr.findall_digits (Fetch.clean s)) as [|n0 [|n1 ns]];
      split; intro H; try reflexivity; discriminate. }
  split; [exact Hmin|]. split; [exact Hmax|].
  rewrite Hmin, Hmax. reflexivity.
Qed.

(** X2.  A bound returned by the range parser is a whole number and is not
    negative: no label gives a negative or fractional minimum or
    maximum. *)
Theorem range_bounds_non_negative_integers :
  forall (s : string) (q : Q),
    Fetch.extract_minimum_of_range s = Some q
    \/ Fetch.extract_maximum_of_range s = Some q ->
    exists z : Z, (0 <= z)%Z /\ q == inject_Z z.
Proof.
  intros s q [H|H].
  - unfold Fetch.extract_minimum_of_range in H.
    destruct (Fetch.is_under (Fetch.clean s));
      [|destruct (Fetch.is_over (Fetch.clean s))];
      destruct (PyStr.findall_digits (Fetch.clean s)) as [|n0 ns] eqn:E;
      try discriminate; injection H as <-.
    + exists 0%Z. split; [lia | reflexivity].
    + exists (PyStr.int_of_digits n0). split; [|reflexivity].
      apply int_of_digits_non_negative.
      apply (findall_digits_tokens (Fetch.clean s)). rewrite E. left. reflexivity.
    + exists (PyStr.int_of_digits n0). split; [|reflexivity].
      apply int_of_digits_non_negative.
      apply (findall_digits_tokens (Fetch.clean s)). rewrite E. left. reflexivity.
  - unfold Fetch.extract_maximum_of_range in H.
    assert (Htok : forall tok, In tok (PyStr.findall_digits (Fetch.clean s)) ->
                               (0 <= PyStr.int_of_digits tok)%Z).
    { intros tok Hin. apply int_of_digits_non_negative.
      apply (findall_digits_tokens (Fetch.clean s)). exact Hin. }
    destruct (Fetch.is_under (Fetch.clean s));
      [|destruct (Fetch.is_over (Fetch.clean s))];
      destruct (PyStr.findall_digits (Fetch.clean s)) as [|n0 [|n1 ns]];
      try discriminate; injection H as <-.
    + exists (PyStr.int_of_digits n0). split; [apply Htok; left|]; reflexivity.
    + exists (PyStr.int_of_digits n0). split; [apply Htok; left|]; reflexivity.
    + exists (PyStr.int_of_digits n0 * 2)%Z. split.
      * assert (0 <= PyStr.int_of_digits n0)%Z by (apply Htok; left; reflexivity). lia.
      * unfold PyStr.float_of_digits. rewrite inject_Z_mult. reflexivity.
    + exists (PyStr.int_of_digits n0 * 2)%Z. split.
      * assert (0 <= PyStr.int_of_digits n0)%Z by (apply Htok; left; reflexivity). lia.
      * unfold PyStr.float_of_digits. rewrite inject_Z_mult. reflexivity.
    + exists (PyStr.int_of_digits n0). split; [apply Htok; left|]; reflexivity.
    + exists (PyStr.int_of_digits n1). split; [apply Htok; right; left|]; reflexivity.
Qed.

Lemma range_bounds_non_negative_integers_witness :
  exists z : Z, (0 <= z)%Z /\ 400000 == inject_Z z.
Proof.
  apply (range_bounds_non_negative_integers "$200,000 and over" 400000).
  right. reflexivity.
Defined.

(** X3.  For a label that is open at one end, or that holds one number
    only, the minimum is never above the maximum: "under" gives 0 and the
    number, "over" or a final "+" gives the number and its double, a single
    number gives it twice.  Only a label with two numbers and no marker can
    have its bounds in the wrong order. *)
Theorem open_or_single_range_ordered :
  forall (s : string) (mn mx : Q),
    Fetch.extract_minimum_of_range s = Some mn ->
    Fetch.extract_maximum_of_range s = Some mx ->
    Fetch.is_under (Fetch.clean s) = true
    \/ Fetch.is_over (Fetch.clean s) = true
    \/ List.length (PyStr.findall_digits (Fetch.clean s)) = 1%nat ->
    mn <= mx
    /\ (Fetch.is_under (Fetch.clean s) = true -> mn = 0)
    /\ (Fetch.is_under (Fetch.clean s) = false ->
        Fetch.is_over (Fetch.clean s) = true -> mx = mn * 2).
Proof.
  intros s mn mx Hmn Hmx Hkind.
  assert (Htok : forall tok, In tok (PyStr.findall_digits (Fetch.clean s)) ->
                             0 <= PyStr.float_of_digits tok).
  { intros tok Hin. apply (float_of_token_non_negative (Fetch.clean s)). exact Hin. }
  unfold Fetch.extract_minimum_of_range in Hmn.
  unfold Fetch.extract_maximum_of_range in Hmx.
  destruct (Fetch.is_under (Fetch.clean s)) eqn:Eu;
    [|destruct (Fetch.is_over (Fetch.clean s)) eqn:Eo];
    destruct (PyStr.findall_digits (Fetch.clean s)) as [|n0 [|n1 ns]];
    try discriminate; injection Hmn as <-; injection Hmx as <-;
    assert (H0 : 0 <= PyStr.float_of_digits n0) by (apply Htok; left; reflexivity);
    (split; [|split; intros; try reflexivity; try discriminate]);
    try lra.
  destruct Hkind as [H|[H|H]]; discriminate.
Qed.

Lemma open_or_single_range_ordered_witness :
  200000 <= 200000 * 2
  /\ (Fetch.is_under (Fetch.clean "$200,000+") = true -> 200000 = 0)
  /\ (Fetch.is_under (Fetch.clean "$200,000+") = false ->
      Fetch.is_over (Fetch.clean "$200,000+") = true -> 200000 * 2 = 200000 * 2).
Proof.
  apply (open_or_single_range_ordered "$200,000+" 200000 (200000 * 2)).
  - reflexivity.
  - reflexivity.
  - right. left. reflexivity.
Defined.

(** A two-number label with no marker may have its bounds in the wrong
    order. *)
Example reversed_range :
  Fetch.extract_minimum_of_range "$20,000 to $10,000" = Some 20000
  /\ Fetch.extract_maximum_of_range "$20,000 to $10,000" = Some 10000.
Proof. split; reflexivity. Qed.

(** ** Letter case *)

Lemma lower_char_facts (a : ascii) :
  PyStr.lower_char (PyStr.lower_char a) = PyStr.lower_char a
  /\ PyStr.is_digit (PyStr.lower_char a) = PyStr.is_digit a
  /\ PyStr.is_space (PyStr.lower_char a) = PyStr.is_space a
  /\ (PyStr.is_digit a = true -> PyStr.lower_char a = a)
  /\ Ascii.eqb (PyStr.lower_char a) "$" = Ascii.eqb a "$"
  /\ Ascii.eqb (PyStr.lower_char a) "," = Ascii.eqb a ","
  /\ Ascii.eqb (PyStr.lower_char a) "+" = Ascii.eqb a "+".
Proof.
  destruct a as [[] [] [] [] [] [] [] []]; vm_compute;
    repeat split; try reflexivity; intro H; try reflexivity; discriminate.
Qed.

Lemma lower_idempotent (s : string) : PyStr.lower (PyStr.lower s) = PyStr.lower s.
Proof.
  induction s as [|a rest IH]; simpl; [reflexivity|].
  destruct (lower_char_facts a) as [E _]. rewrite IH, E. reflexivity.
Qed.

Lemma lower_empty (s : string) :
  PyStr.lower s = EmptyString <-> s = EmptyString.
Proof. destruct s; simpl; split; intro H; try reflexivity; discriminate. Qed.

Lemma lower_remove_dollar (s : string) :
  PyStr.remove_char "$" (PyStr.lower s) = PyStr.lower (PyStr.remove_char "$" s).
Proof.
  induction s as [|a rest IH]; simpl; [reflexivity|].
  destruct (lower_char_facts a) as (_ & _ & _ & _ & E & _). rewrite E.
  destruct (Ascii.eqb a "$"); simpl; rewrite IH; reflexivity.
Qed.

Lemma lower_remove_comma (s : string) :
  PyStr.remove_char "," (PyStr.lower s) = PyStr.lower (PyStr.remove_char "," s).
Proof.
  induction s as [|a rest IH]; simpl; [reflexivity|].
  destruct (lower_char_facts a) as (_ & _ & _ & _ & _ & E & _). rewrite E.
  destruct (Ascii.eqb a ","); simpl; rewrite IH; reflexivity.
Qed.

Lemma clean_lower (s : string) :
  Fetch.clean (PyStr.lower s) = PyStr.lower (Fetch.clean s).
Proof.
  unfold Fetch.clean. rewrite lower_remove_dollar, lower_remove_comma. reflexivity.
Qed.

Lemma findall_digits_aux_lower (s : string) (cur : list ascii) :
  PyStr.findall_digits_aux cur (PyStr.lower s) = PyStr.findall_digits_aux cur s.
Proof.
  revert cur. induction s as [|a rest IH]; intro cur; simpl; [reflexivity|].
  destruct (lower_char_facts a) as (_ & Ed & _ & Eid & _).
  rewrite Ed. destruct (PyStr.is_digit a) eqn:Ea.
  - rewrite (Eid eq_refl). apply IH.
  - destruct cur; rewrite IH; reflexivity.
Qed.

Lemma findall_digits_lower (s : string) :
  PyStr.findall_digits (PyStr.lower s) = PyStr.findall_digits s.
Proof. apply findall_digits_aux_lower. Qed.

Lemma lstrip_lower (s : string) :
  PyStr.lstrip (PyStr.lower s) = PyStr.lower (PyStr.lstrip s).
Proof.
  induction s as [|a rest IH]; simpl; [reflexivity|].
  destruct (lower_char_facts a) as (_ & _ & Es & _). rewrite Es.
  destruct (PyStr.is_space a); [exact IH | reflexivity].
Qed.

Lemma rstrip_lower (s : string) :
  PyStr.rstrip (PyStr.lower s) = PyStr.lower (PyStr.rstrip s).
Proof.
  induction s as [|a rest IH]; simpl; [reflexivity|].
  destruct (lower_char_facts a) as (_ & _ & Es & _). rewrite IH, Es.
  destruct (PyStr.rstrip rest) as [|r rs]; simpl.
  - destruct (PyStr.is_space a); reflexivity.
  - reflexivity.
Qed.

Lemma endswith_plus_lower (s : string) :
  PyStr.endswith_char (PyStr.lower s) "+" = PyStr.endswith_char s "+".
Proof.
  induction s as [|a rest IH]; simpl; [reflexivity|].
  destruct rest as [|b rest']; simpl in *.
  - destruct (lower_char_facts a) as (_ & _ & _ & _ & _ & _ & E). exact E.
  - exact IH.
Qed.

Lemma markers_lower (s : string) :
  Fetch.is_under (Fetch.clean (PyStr.lower s)) = Fetch.is_under (Fetch.clean s)
  /\ Fetch.is_over (Fetch.clean (PyStr.lower s)) = Fetch.is_over (Fetch.clean s).
Proof.
  unfold Fetch.is_under, Fetch.is_over, PyStr.strip.
  rewrite clean_lower, lower_idempotent, lstrip_lower, rstrip_lower,
    endswith_plus_lower.
  split; reflexivity.
Qed.

(** X4.  The range parser ignores letter case: two labels that differ only
    in the case of their letters, such as "UNDER $10,000" and
    "under $10,000", have the same minimum and the same maximum. *)
Theorem range_parser_ignores_case :
  forall s1 s2 : string,
    PyStr.lower s1 = PyStr.lower s2 ->
    Fetch.extract_minimum_of_range s1 = Fetch.extract_minimum_of_range s2
    /\ Fetch.extract_maximum_of_range s1 = Fetch.extract_maximum_of_range s2.
Proof.
  assert (Hlow : forall s,
             Fetch.extract_minimum_of_range (PyStr.lower s)
             = Fetch.extract_minimum_of_range s
             /\ Fetch.extract_maximum_of_range (PyStr.lower s)
                = Fetch.extract_maximum_of_range s).
  { intro s.
    unfold Fetch.extract_minimum_of_range, Fetch.extract_maximum_of_range.
    destruct (markers_lower s) as [Eu Eo]. rewrite Eu, Eo.
    rewrite clean_lower, findall_digits_lower. split; reflexivity. }
  intros s1 s2 H.
  destruct (Hlow s1) as [A1 B1]. destruct (Hlow s2) as [A2 B2].
  rewrite <- A1, <- B1, <- A2, <- B2, H. split; reflexivity.
Qed.

Lemma range_parser_ignores_case_witness :
  Fetch.extract_minimum_of_range "UNDER $10,000"
  = Fetch.extract_minimum_of_range "Under $10,000"
  /\ Fetch.extract_maximum_of_range "UNDER $10,000"
     = Fetch.extract_maximum_of_range "Under $10,000".
Proof.
  apply (range_parser_ignores_case "UNDER $10,000" "Under $10,000").
  reflexivity.
Defined.

(** ** The percentile estimators *)

Lemma split_at_first_crossing (target : Q) (d : distribution) :
  reaches target d ->
  exists pre b post,
    d = pre ++ b :: post /\ stays_below target 0 pre
    /\ target <= cumulative_from 0 pre + percentage b.
Proof. intro H. apply first_crossing_from. exact H. Qed.

Lemma parsed_minimum_non_negative (s : string) :
  0 <= or_zero (Fetch.extract_minimum_of_range s).
Proof.
  unfold Fetch.extract_minimum_of_range.
  destruct (Fetch.is_under (Fetch.clean s));
    [|destruct (Fetch.is_over (Fetch.clean s))];
    destruct (PyStr.findall_digits (Fetch.clean s)) as [|n0 ns] eqn:E; simpl;
    try apply Qle_refl;
    apply (float_of_token_non_negative (Fetch.clean s)); rewrite E; left; reflexivity.
Qed.

Lemma parsed_maximum_non_negative (s : string) :
  0 <= or_zero (Fetch.extract_maximum_of_range s).
Proof.
  assert (Htok : forall tok, In tok (PyStr.findall_digits (Fetch.clean s)) ->
                             0 <= PyStr.float_of_digits tok).
  { intros tok Hin. apply (float_of_token_non_negative (Fetch.clean s)). exact Hin. }
  unfold Fetch.extract_maximum_of_range.
  destruct (Fetch.is_under (Fetch.clean s));
    [|destruct (Fetch.is_over (Fetch.clean s))];
    destruct (PyStr.findall_digits (Fetch.clean s)) as [|n0 [|n1 ns]]; simpl;
    try apply Qle_refl;
    try (apply Htok; simpl; tauto);
    assert (0 <= PyStr.float_of_digits n0) by (apply Htok; simpl; tauto); lra.
Qed.

Lemma after_loop_non_negative (d : distribution) : 0 <= Fetch.after_loop d.
Proof.
  unfold Fetch.after_loop. destruct (last_bracket d) as [b|].
  - apply parsed_maximum_non_negative.
  - apply Qle_refl.
Qed.

Lemma percentile_loop_non_negative (target c : Q) (d : distribution) (v : Q) :
  Fetch.percentile_loop target c d = Some v -> 0 <= v.
Proof.
  revert c. induction d as [|b rest IH]; intros c H; simpl in H; [discriminate|].
  destruct (Qle_bool target (c + percentage b)).
  - injection H as <-. apply parsed_minimum_non_negative.
  - apply (IH _ H).
Qed.

(** The value interpolated in a bracket that the target reaches is not
    negative, whatever the order of the two bounds. *)
Lemma interpolate_non_negative (target c : Q) (b : bracket) :
  c < target -> target <= c + percentage b ->
  exists v, Fetch.interpolate target c b = Ok v /\ 0 <= v.
Proof.
  intros Hc Hb. assert (Hshare : 0 < percentage b) by lra.
  unfold Fetch.interpolate. rewrite (Qeq_bool_false_of_pos _ Hshare).
  pose proof (parsed_minimum_non_negative (range b)) as Hmn.
  pose proof (parsed_maximum_non_negative (range b)) as Hmx.
  destruct (Fetch.extract_minimum_of_range (range b)) as [mn|];
    destruct (Fetch.extract_maximum_of_range (range b)) as [mx|];
    simpl in *; eexists; (split; [reflexivity|]); try assumption; try apply Qle_refl.
  destruct (fraction_bounds c (percentage b) Hshare target Hc Hb) as [F0 F1].
  change 0 with (inject_Z 0). rewrite <- Zle_Qle. apply py_round_ge_Z.
  generalize dependent ((target - c) / percentage b). intros f F0 F1.
  assert (0 <= mn * (1 - f)) by (apply Qmult_le_0_compat; lra).
  assert (0 <= mx * f) by (apply Qmult_le_0_compat; lra).
  change (inject_Z 0) with 0. lra.
Qed.

Lemma interpolated_loop_non_negative (target c : Q) (d : distribution) (r : result Q) :
  c < target ->
  Fetch.interpolated_loop target c d = Some r ->
  exists v, r = Ok v /\ 0 <= v.
Proof.
  revert c. induction d as [|b rest IH]; intros c Hc H; simpl in H; [discriminate|].
  destruct (Qle_bool target (c + percentage b)) eqn:E.
  - injection H as <-. apply Qle_bool_iff in E.
    apply interpolate_non_negative; assumption.
  - apply Qle_bool_false in E. apply (IH _ E H).
Qed.

Lemma analyzer_after_loop_non_negative (d : distribution) :
  0 <= Analyzer.after_loop d.
Proof.
  unfold Analyzer.after_loop. destruct (last_bracket d) as [b|]; [|apply Qle_refl].
  destruct (PyStr.findall_digits (Analyzer.clean (range b))) as [|n0 ns] eqn:E;
    [apply Qle_refl|].
  apply (float_of_token_non_negative (Analyzer.clean (range b))).
  rewrite E. left. reflexivity.
Qed.

Lemma top_loop_non_negative (target c : Q) (d : distribution) (v : Q) :
  Analyzer.top_loop target c d = Some (Ok v) -> 0 <= v.
Proof.
  revert c. induction d as [|b rest IH]; intros c H; simpl in H; [discriminate|].
  destruct (Qle_bool target (c + percentage b)); [|apply (IH _ H)].
  unfold Analyzer.at_crossing in H.
  destruct (PyStr.findall_digits (Analyzer.clean (range b))) as [|n0 ns] eqn:E.
  - destruct (PyStr.contains "<" (Analyzer.clean (range b)));
      [discriminate | apply (IH _ H)].
  - assert (Hv : v = PyStr.float_of_digits n0).
    { destruct (PyStr.contains "<" (Analyzer.clean (range b)));
        injection H as <-; reflexivity. }
    rewrite Hv. apply (float_of_token_non_negative (Analyzer.clean (range b))).
    rewrite E. left. reflexivity.
Qed.

Lemma percentile_75_non_negative (d : distribution) :
  0 <= Fetch.calculate_75th_percentile_threshold_from_distribution d.
Proof.
  unfold Fetch.calculate_75th_percentile_threshold_from_distribution,
    Fetch.percentile_threshold_at.
  destruct (Fetch.percentile_loop 75 0 d) as [v|] eqn:E.
  - apply (percentile_loop_non_negative 75 0 d v E).
  - apply after_loop_non_negative.
Qed.



(** The rounded interpolation stays between two whole bounds. *)
Lemma interpolate_between_bounds (target c : Q) (b : bracket) (mn mx : Q) :
  c < target -> target <= c + percentage b ->
  Fetch.extract_minimum_of_range (range b) = Some mn ->
  Fetch.extract_maximum_of_range (range b) = Some mx ->
  mn <= mx ->
  exists v, Fetch.interpolate target c b = Ok v /\ mn <= v /\ v <= mx.
Proof.
  intros Hc Hb Hmn Hmx Hord. assert (Hshare : 0 < percentage b) by lra.
  destruct (extract_minimum_integral _ _ Hmn) as [zn Hzn].
  destruct (extract_maximum_integral _ _ Hmx) as [zx Hzx].
  unfold Fetch.interpolate.
  rewrite (Qeq_bool_false_of_pos _ Hshare), Hmn, Hmx.
  eexists. split; [reflexivity|].
  destruct (interpolation_between c (percentage b) mn mx Hshare Hord target Hc Hb)
    as [Hge Hle].
  generalize dependent (mn + (mx - mn) * ((target - c) / percentage b)).
  intros x Hge Hle. split.
  - apply Qle_trans with (inject_Z zn); [lra|].
    rewrite <- Zle_Qle. apply py_round_ge_Z. lra.
  - apply Qle_trans with (inject_Z zx); [|lra].
    rewrite <- Zle_Qle. apply py_round_le_Z. lra.
Qed.

Lemma boundary_le_interpolated_loops (target : Q) (d : distribution) :
  forall c : Q,
    c < target ->
    bounds_ordered_in d ->
    match Fetch.percentile_loop target c d, Fetch.interpolated_loop target c d with
    | Some p, Some r => exists v, r = Ok v /\ p <= v
    | None, None => True
    | _, _ => False
    end.
Proof.
  induction d as [|b rest IH]; intros c Hc Hord; simpl; [exact I|].
  destruct (Qle_bool target (c + percentage b)) eqn:E.
  - apply Qle_bool_iff in E. assert (Hshare : 0 < percentage b) by lra.
    destruct (Fetch.extract_minimum_of_range (range b)) as [mn|] eqn:Emn.
    + destruct (Fetch.extract_maximum_of_range (range b)) as [mx|] eqn:Emx.
      * destruct (interpolate_between_bounds target c b mn mx Hc E Emn Emx)
          as (v & Hv & Hge & _).
        { apply (Hord b mn mx); [left; reflexivity | exact Emn | exact Emx]. }
        exists v. split; [exact Hv | exact Hge].
      * unfold Fetch.interpolate.
        rewrite (Qeq_bool_false_of_pos _ Hshare), Emn, Emx.
        eexists. split; [reflexivity | apply Qle_refl].
    + unfold Fetch.interpolate.
      rewrite (Qeq_bool_false_of_pos _ Hshare), Emn.
      eexists. split; [reflexivity | apply Qle_refl].
  - apply Qle_bool_false in E. apply IH; [exact E|].
    intros b' mn mx Hin. apply Hord. right. exact Hin.
Qed.

(** X8.  For one target above 0 and one distribution whose brackets have
    their bounds in order, the boundary estimator never returns more than
    the interpolated estimator: the first returns the minimum of the
    bracket that reaches the target, the second a value inside that
    bracket, and both return the same value when no bracket reaches the
    target. *)
Theorem boundary_at_most_interpolated :
  forall (target : Q) (d : distribution),
    0 < target ->
    bounds_ordered_in d ->
    exists v,
      Fetch.interpolated_threshold_at target d = Ok v
      /\ Fetch.percentile_threshold_at target d <= v.
Proof.
  intros target d Hpos Hord.
  pose proof (boundary_le_interpolated_loops target d 0 Hpos Hord) as H.
  unfold Fetch.interpolated_threshold_at, Fetch.percentile_threshold_at.
  destruct (Fetch.percentile_loop target 0 d) as [p|];
    destruct (Fetch.interpolated_loop target 0 d) as [r|]; try contradiction.
  - destruct H as (v & -> & Hle). exists v. split; [reflexivity | exact Hle].
  - eexists. split; [reflexivity | apply Qle_refl].
Qed.

Lemma sample_bounds_ordered : bounds_ordered_in Fetch.sample_toronto_distribution.
Proof.
  intros b mn mx Hin Hmn Hmx.
  repeat (destruct Hin as [<-|Hin];
          [vm_compute in Hmn, Hmx; injection Hmn as <-; injection Hmx as <-;
           vm_compute; discriminate|]).
  destruct Hin.
Qed.

Lemma boundary_at_most_interpolated_witness :
  exists v,
    Fetch.interpolated_threshold_at 75 Fetch.sample_toronto_distribution = Ok v
    /\ Fetch.percentile_threshold_at 75 Fetch.sample_toronto_distribution <= v.
Proof.
  apply (boundary_at_most_interpolated 75 Fetch.sample_toronto_distribution).
  - reflexivity.
  - exact sample_bounds_ordered.
Defined.

Lemma percentile_from_crossing (target c : Q) (b : bracket) (rest : distribution) :
  target <= c + percentage b ->
  percentile_from target c (b :: rest)
  = or_zero (Fetch.extract_minimum_of_range (range b)).
Proof.
  intro H. unfold percentile_from. simpl.
  apply Qle_bool_iff in H. rewrite H. reflexivity.
Qed.

Lemma percentile_from_last (target c : Q) (b : bracket) :
  c + percentage b < target ->
  percentile_from target c [b]
  = or_zero (Fetch.extract_maximum_of_range (range b)).
Proof.
  intro H. unfold percentile_from. simpl.
  apply Qle_bool_false in H. rewrite H. reflexivity.
Qed.

Lemma percentile_from_next (target c : Q) (b b' : bracket) (rest : distribution) :
  c + percentage b < target ->
  percentile_from target c (b :: b' :: rest)
  = percentile_from target (c + percentage b) (b' :: rest).
Proof.
  intro Hb. unfold percentile_from.
  change (Fetch.percentile_loop target c (b :: b' :: rest))
    with (if Qle_bool target (c + percentage b)
          then Some (or_zero (Fetch.extract_minimum_of_range (range b)))
          else Fetch.percentile_loop target (c + percentage b) (b' :: rest)).
  apply Qle_bool_false in Hb. rewrite Hb. reflexivity.
Qed.

Lemma percentile_from_monotone (d : distribution) :
  forall lo c p1 p2 : Q,
    ascending_from lo d ->
    d <> [] ->
    p1 <= p2 ->
    lo <= percentile_from p1 c d
    /\ percentile_from p1 c d <= percentile_from p2 c d.
Proof.
  induction d as [|b rest IH]; intros lo c p1 p2 Hasc Hne Hp; [contradiction|].
  simpl in Hasc.
  destruct (Fetch.extract_minimum_of_range (range b)) as [mn|] eqn:Emn;
    [|contradiction].
  destruct (Fetch.extract_maximum_of_range (range b)) as [mx|] eqn:Emx;
    [|contradiction].
  destruct Hasc as (Hlomn & Hmnmx & Hrest).
  assert (Hpass : forall p, c + percentage b < p ->
                            mx <= percentile_from p c (b :: rest)).
  { intros p Hpb. destruct rest as [|b' rest'].
    - rewrite (percentile_from_last p c b Hpb), Emx. apply Qle_refl.
    - rewrite (percentile_from_next p c b b' rest' Hpb).
      apply (IH mx (c + percentage b) p p Hrest); [discriminate | apply Qle_refl]. }
  destruct (Qlt_le_dec (c + percentage b) p1) as [Hb1|Hb1];
    destruct (Qlt_le_dec (c + percentage b) p2) as [Hb2|Hb2].
  - destruct rest as [|b' rest'].
    + rewrite (percentile_from_last p1 c b Hb1), (percentile_from_last p2 c b Hb2), Emx.
      simpl. split; [lra | apply Qle_refl].
    + rewrite (percentile_from_next p1 c b b' rest' Hb1).
      rewrite (percentile_from_next p2 c b b' rest' Hb2).
      destruct (IH mx (c + percentage b) p1 p2 Hrest) as [H1 H2];
        [discriminate | exact Hp |].
      split; [lra | exact H2].
  - exfalso. lra.
  - rewrite (percentile_from_crossing p1 c b rest Hb1), Emn. simpl.
    pose proof (Hpass p2 Hb2). split; lra.
  - rewrite (percentile_from_crossing p1 c b rest Hb1).
    rewrite (percentile_from_crossing p2 c b rest Hb2), Emn. simpl.
    split; [exact Hlomn | apply Qle_refl].
Qed.

(** X9.  On a distribution whose labels all parse and whose bounds ascend,
    the boundary estimator of [fetch_statscan_income.py] does not decrease
    when the target grows, for any two targets and whatever the shares. *)
Theorem boundary_mode_monotone :
  forall (d : distribution) (p1 p2 : Q),
    ascending d ->
    p1 <= p2 ->
    Fetch.percentile_threshold_at p1 d <= Fetch.percentile_threshold_at p2 d.
Proof.
  intros d p1 p2 Hasc Hp. destruct d as [|b rest].
  - apply Qle_refl.
  - apply (percentile_from_monotone (b :: rest) 0 0 p1 p2 Hasc); [discriminate | exact Hp].
Qed.

Lemma boundary_mode_monotone_witness :
  Fetch.percentile_threshold_at 25 Fetch.sample_toronto_distribution
  <= Fetch.percentile_threshold_at 75 Fetch.sample_toronto_distribution.
Proof.
  apply (boundary_mode_monotone Fetch.sample_toronto_distribution 25 75).
  - vm_compute. intuition discriminate.
  - vm_compute. discriminate.
Defined.

(** ** [calculate_top_75_threshold] against the boundary estimator *)

Lemma less_than_labels_numbered_tail (b : bracket) (rest : distribution) :
  less_than_labels_numbered (b :: rest) -> less_than_labels_numbered rest.
Proof. intros H b' Hin. apply H. right. exact Hin. Qed.

Lemma top_loop_returns (target c : Q) (d : distribution) (r : result Q) :
  less_than_labels_numbered d ->
  Analyzer.top_loop target c d = Some r ->
  exists v, r = Ok v.
Proof.
  revert c. induction d as [|b rest IH]; intros c Hd H; simpl in H; [discriminate|].
  pose proof (less_than_labels_numbered_tail b rest Hd) as Hrest.
  destruct (Qle_bool target (c + percentage b)); [|apply (IH _ Hrest H)].
  unfold Analyzer.at_crossing in H.
  destruct (PyStr.contains "<" (Analyzer.clean (range b))) eqn:Elt.
  - destruct (PyStr.findall_digits (Analyzer.clean (range b))) as [|n0 ns] eqn:E.
    + exfalso. apply (Hd b (or_introl eq_refl) Elt). exact E.
    + injection H as <-. eexists. reflexivity.
  - destruct (PyStr.findall_digits (Analyzer.clean (range b))) as [|n0 ns].
    + apply (IH _ Hrest H).
    + injection H as <-. eexists. reflexivity.
Qed.

(** X10.  [calculate_top_75_threshold] returns a value, for any target,
    on every distribution in which each label with "<" also holds a number.
    Its only failure is the [numbers[0]] of a "<" label without a number,
    which needs the cumulative share to have reached the target there. *)
Theorem top_threshold_returns :
  forall (target : Q) (d : distribution),
    less_than_labels_numbered d ->
    exists v, Analyzer.top_threshold_at target d = Ok v.
Proof.
  intros target d Hd. unfold Analyzer.top_threshold_at.
  destruct (Analyzer.top_loop target 0 d) as [r|] eqn:E.
  - apply (top_loop_returns target 0 d r Hd E).
  - eexists. reflexivity.
Qed.

Lemma top_threshold_returns_witness :
  exists v,
    Analyzer.top_threshold_at 25 Analyzer.sample_income_distribution = Ok v.
Proof.
  apply (top_threshold_returns 25 Analyzer.sample_income_distribution).
  intros b Hin _.
  repeat (destruct Hin as [<-|Hin]; [vm_compute; discriminate|]).
  destruct Hin.
Defined.

(** ** The average estimator: bounds and symmetries *)

Lemma midpoint_non_negative (s : string) (m : Q) :
  Analyzer.extract_midpoint_of_range s = Some m -> 0 <= m.
Proof.
  assert (Htok : forall tok, In tok (PyStr.findall_digits (Analyzer.clean s)) ->
                             0 <= inject_Z (PyStr.int_of_digits tok)).
  { intros tok Hin. apply (float_of_token_non_negative (Analyzer.clean s)). exact Hin. }
  unfold Analyzer.extract_midpoint_of_range.
  destruct (PyStr.findall_digits (Analyzer.clean s)) as [|n0 [|n1 [|n2 ns]]];
    try discriminate.
  - assert (H0 : 0 <= inject_Z (PyStr.int_of_digits n0)) by (apply Htok; simpl; tauto).
    destruct (PyStr.contains "<" (Analyzer.clean s));
      [|destruct (PyStr.contains ">" (Analyzer.clean s)
                  || PyStr.contains "+" (Analyzer.clean s))];
      intro H; injection H as <-.
    + apply Qle_shift_div_l; [reflexivity | lra].
    + apply Qmult_le_0_compat; [exact H0 | vm_compute; discriminate].
    + exact H0.
  - assert (H0 : 0 <= inject_Z (PyStr.int_of_digits n0)) by (apply Htok; simpl; tauto).
    assert (H1 : 0 <= inject_Z (PyStr.int_of_digits n1)) by (apply Htok; simpl; tauto).
    intro H; injection H as <-. rewrite inject_Z_plus.
    apply Qle_shift_div_l; [reflexivity | lra].
Qed.

(** What one turn of the loop adds to the two sums. *)
Lemma average_step_cases (acc : Q * Q) (b : bracket) :
  (exists m, Analyzer.extract_midpoint_of_range (range b) = Some m
             /\ ~ m == 0
             /\ Analyzer.average_step acc b
                = (fst acc + m * percentage b, snd acc + percentage b))
  \/ (Analyzer.truthy (Analyzer.extract_midpoint_of_range (range b)) = false
      /\ Analyzer.average_step acc b = acc).
Proof.
  unfold Analyzer.average_step.
  destruct (Analyzer.extract_midpoint_of_range (range b)) as [m|]; simpl.
  - destruct (Qeq_bool m 0) eqn:E; simpl.
    + right. split; reflexivity.
    + left. exists m. split; [reflexivity|]. split; [|reflexivity].
      intro Hm. apply Qeq_bool_iff in Hm. congruence.
  - right. split; reflexivity.
Qed.

Lemma average_total_monotone (d : distribution) (acc : Q * Q) :
  non_negative d ->
  snd acc <= snd (fold_left Analyzer.average_step d acc).
Proof.
  revert acc. induction d as [|b rest IH]; intros acc Hnn; simpl; [apply Qle_refl|].
  assert (Hrest : non_negative rest) by (intros b' Hin; apply Hnn; right; exact Hin).
  assert (Hb : 0 <= percentage b) by (apply Hnn; left; reflexivity).
  apply Qle_trans with (snd (Analyzer.average_step acc b)); [|apply IH; exact Hrest].
  destruct (average_step_cases acc b) as [(m & _ & _ & ->)|[_ ->]]; simpl; lra.
Qed.

(** The loop keeps the weighted sum between [lo] and [hi] times the sum of
    the shares. *)
Lemma average_sums_between (lo hi : Q) (d : distribution) (acc : Q * Q) :
  non_negative d ->
  (forall b m, In b d ->
      Analyzer.extract_midpoint_of_range (range b) = Some m ->
      ~ m == 0 -> lo <= m /\ m <= hi) ->
  lo * snd acc <= fst acc /\ fst acc <= hi * snd acc ->
  lo * snd (fold_left Analyzer.average_step d acc)
  <= fst (fold_left Analyzer.average_step d acc)
  /\ fst (fold_left Analyzer.average_step d acc)
     <= hi * snd (fold_left Analyzer.average_step d acc).
Proof.
  revert acc. induction d as [|b rest IH]; intros acc Hnn Hmid Hacc; simpl;
    [exact Hacc|].
  apply IH.
  - intros b' Hin. apply Hnn. right. exact Hin.
  - intros b' m Hin. apply Hmid. right. exact Hin.
  - assert (Hb : 0 <= percentage b) by (apply Hnn; left; reflexivity).
    destruct (average_step_cases acc b) as [(m & Em & Hm & ->)|[_ ->]];
      [|exact Hacc].
    destruct (Hmid b m (or_introl eq_refl) Em Hm) as [Hlo Hhi]. simpl.
    assert (0 <= (m - lo) * percentage b) by (apply Qmult_le_0_compat; lra).
    assert (0 <= (hi - m) * percentage b) by (apply Qmult_le_0_compat; lra).
    split; lra.
Qed.

(** A counted bracket with a share above 0 makes the sum of the shares
    positive. *)
Lemma average_total_positive (d : distribution) :
  non_negative d ->
  (exists b, In b d /\ 0 < percentage b
             /\ Analyzer.truthy (Analyzer.extract_midpoint_of_range (range b)) = true) ->
  0 < snd (fold_left Analyzer.average_step d (0, 0)).
Proof.
  intros Hnn (b & Hin & Hpos & Htruthy).
  destruct (in_split b d Hin) as (pre & post & ->).
  rewrite fold_left_app. simpl.
  assert (Hpre : non_negative pre).
  { intros b' Hb'. apply Hnn. apply in_or_app. left. exact Hb'. }
  assert (Hpost : non_negative post).
  { intros b' Hb'. apply Hnn. apply in_or_app. right. right. exact Hb'. }
  pose proof (average_total_monotone pre (0, 0) Hpre) as H1. simpl in H1.
  pose proof (average_total_monotone post
                (Analyzer.average_step (fold_left Analyzer.average_step pre (0, 0)) b)
                Hpost) as H2.
  apply Qlt_le_trans
    with (snd (Analyzer.average_step (fold_left Analyzer.average_step pre (0, 0)) b));
    [|exact H2].
  destruct (average_step_cases (fold_left Analyzer.average_step pre (0, 0)) b)
    as [(m & _ & _ & ->)|[Hf _]]; [simpl; lra|].
  rewrite Htruthy in Hf. discriminate.
Qed.

(** X12.  With non-negative shares, the estimated average lies between the
    smallest and the largest midpoint of the brackets that are counted, as
    soon as one of them has a share above 0.  In particular a distribution
    whose counted brackets all have the midpoint [m] has the average
    [m].  Numbers are the exact rationals here; in binary64 the bounds hold
    up to the rounding of the products, the sums and the quotient (see
    [average_of_one_bracket_in_binary64]). *)
Theorem average_between_midpoints :
  forall (d : distribution) (lo hi : Q),
    non_negative d ->
    (forall b m, In b d ->
        Analyzer.extract_midpoint_of_range (range b) = Some m ->
        ~ m == 0 -> lo <= m /\ m <= hi) ->
    (exists b, In b d /\ 0 < percentage b
               /\ Analyzer.truthy (Analyzer.extract_midpoint_of_range (range b)) = true) ->
    lo <= Analyzer.estimate_average_from_distribution d
    /\ Analyzer.estimate_average_from_distribution d <= hi.
Proof.
  intros d lo hi Hnn Hmid Hcounted.
  pose proof (average_total_positive d Hnn Hcounted) as Hpos.
  destruct (average_sums_between lo hi d (0, 0) Hnn Hmid) as [Hlo Hhi];
    [simpl; split; lra|].
  unfold Analyzer.estimate_average_from_distribution.
  assert (E : Qle_bool (snd (fold_left Analyzer.average_step d (0, 0))) 0 = false).
  { apply Qle_bool_false. exact Hpos. }
  rewrite E. split.
  - apply Qle_shift_div_l; [exact Hpos | exact Hlo].
  - apply Qle_shift_div_r; [exact Hpos | exact Hhi].
Qed.

Lemma average_between_midpoints_witness :
  29999 <= Analyzer.estimate_average_from_distribution
             [mk_bracket "$20,000-$39,999" 40; mk_bracket "$40,000-$59,999" 60]
  /\ Analyzer.estimate_average_from_distribution
       [mk_bracket "$20,000-$39,999" 40; mk_bracket "$40,000-$59,999" 60]
     <= 50000.
Proof.
  apply (average_between_midpoints
           [mk_bracket "$20,000-$39,999" 40; mk_bracket "$40,000-$59,999" 60]
           29999 50000).
  - intros b [<-|[<-|[]]]; vm_compute; discriminate.
  - intros b m [<-|[<-|[]]] Hm _; vm_compute in Hm; injection Hm as <-;
      split; vm_compute; discriminate.
  - exists (mk_bracket "$20,000-$39,999" 40).
    split; [left; reflexivity|]. split; reflexivity.
Defined.

Lemma average_weighted_non_negative (d : distribution) (acc : Q * Q) :
  non_negative d ->
  0 <= fst acc ->
  0 <= fst (fold_left Analyzer.average_step d acc).
Proof.
  revert acc. induction d as [|b rest IH]; intros acc Hnn Hacc; simpl; [exact Hacc|].
  apply IH; [intros b' Hin; apply Hnn; right; exact Hin|].
  assert (Hb : 0 <= percentage b) by (apply Hnn; left; reflexivity).
  destruct (average_step_cases acc b) as [(m & Em & _ & ->)|[_ ->]]; [|exact Hacc].
  simpl. pose proof (midpoint_non_negative _ _ Em) as Hm.
  assert (0 <= m * percentage b) by (apply Qmult_le_0_compat; assumption).
  lra.
Qed.

(** X13.  With non-negative shares the estimated average is never
    negative, whatever the labels. *)
Theorem average_non_negative :
  forall d : distribution,
    non_negative d ->
    0 <= Analyzer.estimate_average_from_distribution d.
Proof.
  intros d Hnn.
  pose proof (average_weighted_non_negative d (0, 0) Hnn (Qle_refl 0)) as Hw.
  unfold Analyzer.estimate_average_from_distribution.
  destruct (Qle_bool (snd (fold_left Analyzer.average_step d (0, 0))) 0) eqn:E.
  - apply Qle_refl.
  - apply Qle_bool_false in E. apply Qle_shift_div_l; [exact E | lra].
Qed.

Lemma average_non_negative_witness :
  0 <= Analyzer.estimate_average_from_distribution Analyzer.sample_income_distribution.
Proof.
  apply (average_non_negative Analyzer.sample_income_distribution).
  intros b Hin.
  repeat (destruct Hin as [<-|Hin]; [vm_compute; discriminate|]).
  destruct Hin.
Defined.

Lemma sums_eq_refl (x : Q * Q) : sums_eq x x.
Proof. split; reflexivity. Qed.

Lemma sums_eq_trans (x y z : Q * Q) : sums_eq x y -> sums_eq y z -> sums_eq x z.
Proof.
  intros [A1 A2] [B1 B2]. split.
  - rewrite A1. exact B1.
  - rewrite A2. exact B2.
Qed.

Lemma average_step_sums_eq (acc acc' : Q * Q) (b : bracket) :
  sums_eq acc acc' ->
  sums_eq (Analyzer.average_step acc b) (Analyzer.average_step acc' b).
Proof.
  intros [Hf Hs]. unfold Analyzer.average_step.
  destruct (Analyzer.truthy (Analyzer.extract_midpoint_of_range (range b))).
  - split; simpl; [rewrite Hf | rewrite Hs]; reflexivity.
  - split; assumption.
Qed.

Lemma average_fold_sums_eq (d : distribution) (acc acc' : Q * Q) :
  sums_eq acc acc' ->
  sums_eq (fold_left Analyzer.average_step d acc)
          (fold_left Analyzer.average_step d acc').
Proof.
  revert acc acc'. induction d as [|b rest IH]; intros acc acc' H; simpl.
  - exact H.
  - apply IH. apply average_step_sums_eq. exact H.
Qed.

Lemma average_step_swap (acc : Q * Q) (x y : bracket) :
  sums_eq (Analyzer.average_step (Analyzer.average_step acc x) y)
          (Analyzer.average_step (Analyzer.average_step acc y) x).
Proof.
  unfold Analyzer.average_step.
  destruct (Analyzer.truthy (Analyzer.extract_midpoint_of_range (range x)));
    destruct (Analyzer.truthy (Analyzer.extract_midpoint_of_range (range y)));
    split; simpl; ring.
Qed.

Lemma average_fold_permutation (d d' : distribution) :
  Permutation d d' ->
  forall acc,
    sums_eq (fold_left Analyzer.average_step d acc)
            (fold_left Analyzer.average_step d' acc).
Proof.
  induction 1 as [|x l l' _ IH|x y l|l l' l'' _ IH1 _ IH2]; intro acc; simpl.
  - apply sums_eq_refl.
  - apply IH.
  - apply average_fold_sums_eq. apply average_step_swap.
  - apply sums_eq_trans with (fold_left Analyzer.average_step l' acc);
      [apply IH1 | apply IH2].
Qed.

(** The quotient that ends [estimate_average_from_distribution] depends on
    the two sums up to numeric equality only. *)
Lemma average_of_sums_eq (x y : Q * Q) :
  sums_eq x y ->
  (if Qle_bool (snd x) 0 then 0 else fst x / snd x)
  == (if Qle_bool (snd y) 0 then 0 else fst y / snd y).
Proof.
  intros [Hf Hs].
  destruct (Qle_bool (snd x) 0) eqn:Ex; destruct (Qle_bool (snd y) 0) eqn:Ey.
  - reflexivity.
  - apply Qle_bool_iff in Ex. apply Qle_bool_false in Ey. exfalso. lra.
  - apply Qle_bool_false in Ex. apply Qle_bool_iff in Ey. exfalso. lra.
  - rewrite Hf, Hs. reflexivity.
Qed.

(** X14.  The estimated average does not depend on the order of the
    brackets: two distributions with the same brackets in different orders
    have the same average (the percentile estimators, which scan in order,
    have no such property). *)
Theorem average_order_independent :
  forall d d' : distribution,
    Permutation d d' ->
    Analyzer.estimate_average_from_distribution d
    == Analyzer.estimate_average_from_distribution d'.
Proof.
  intros d d' H. unfold Analyzer.estimate_average_from_distribution.
  apply average_of_sums_eq. apply average_fold_permutation. exact H.
Qed.

Lemma average_order_independent_witness :
  Analyzer.estimate_average_from_distribution
    [mk_bracket "<$20,000" 30; mk_bracket "$200,000+" 70]
  == Analyzer.estimate_average_from_distribution
       [mk_bracket "$200,000+" 70; mk_bracket "<$20,000" 30].
Proof.
  apply (average_order_independent
           [mk_bracket "<$20,000" 30; mk_bracket "$200,000+" 70]
           [mk_bracket "$200,000+" 70; mk_bracket "<$20,000" 30]).
  apply perm_swap.
Defined.

Lemma average_fold_scaled (k : Q) (d : distribution) :
  forall acc acc' : Q * Q,
    fst acc' == k * fst acc -> snd acc' == k * snd acc ->
    fst (fold_left Analyzer.average_step (scale_shares k d) acc')
    == k * fst (fold_left Analyzer.average_step d acc)
    /\ snd (fold_left Analyzer.average_step (scale_shares k d) acc')
       == k * snd (fold_left Analyzer.average_step d acc).
Proof.
  induction d as [|b rest IH]; intros acc acc' Hf Hs; simpl.
  - split; assumption.
  - apply IH; unfold Analyzer.average_step; simpl;
      destruct (Analyzer.truthy (Analyzer.extract_midpoint_of_range (range b)));
      simpl; try assumption.
    + rewrite Hf. ring.
    + rewrite Hs. ring.
Qed.

(** X15.  Only the proportions of the shares matter to the estimated
    average: multiplying every share by the same factor above 0 (shares in
    percent or as fractions, or shares that do not sum to 100) leaves the
    average unchanged. *)
Theorem average_scale_invariant :
  forall (k : Q) (d : distribution),
    0 < k ->
    Analyzer.estimate_average_from_distribution (scale_shares k d)
    == Analyzer.estimate_average_from_distribution d.
Proof.
  intros k d Hk.
  destruct (average_fold_scaled k d (0, 0) (0, 0)) as [Hf Hs];
    [simpl; ring | simpl; ring |].
  unfold Analyzer.estimate_average_from_distribution.
  set (x := fold_left Analyzer.average_step d (0, 0)) in *.
  set (y := fold_left Analyzer.average_step (scale_shares k d) (0, 0)) in *.
  destruct (Qle_bool (snd x) 0) eqn:Ex; destruct (Qle_bool (snd y) 0) eqn:Ey.
  - reflexivity.
  - apply Qle_bool_iff in Ex. apply Qle_bool_false in Ey. exfalso.
    assert (0 <= k * (0 - snd x)) by (apply Qmult_le_0_compat; lra). lra.
  - apply Qle_bool_false in Ex. apply Qle_bool_iff in Ey. exfalso.
    assert (0 < k * snd x) by (apply Qmult_lt_0_compat; assumption). lra.
  - apply Qle_bool_false in Ex. rewrite Hf, Hs. field. split; lra.
Qed.

Lemma average_scale_invariant_witness :
  Analyzer.estimate_average_from_distribution
    (scale_shares (1 # 100) Analyzer.sample_income_distribution)
  == Analyzer.estimate_average_from_distribution Analyzer.sample_income_distribution.
Proof.
  apply (average_scale_invariant (1 # 100) Analyzer.sample_income_distribution).
  reflexivity.
Defined.

(** ** [calculate_income_statistics] *)

Lemma bottom_25_returns (d : distribution) :
  exists v, Fetch.calculate_bottom_25_threshold_from_distribution d = Ok v /\ 0 <= v.
Proof.
  unfold Fetch.calculate_bottom_25_threshold_from_distribution,
    Fetch.interpolated_threshold_at.
  destruct (Fetch.interpolated_loop 25 0 d) as [r|] eqn:E.
  - apply (interpolated_loop_non_negative 25 0 d r); [reflexivity | exact E].
  - eexists. split; [reflexivity | apply after_loop_non_negative].
Qed.

(** X17.  [calculate_income_statistics] of [statscan_income_analyzer.py]
    returns a result whenever every label with "<" in the distribution
    holds a number, and always when the distribution is missing.  The
    average it reports is the one of the dictionary when there is one,
    whatever the distribution, and the estimate from the distribution
    otherwise; the median is passed on, [None] included; the threshold is
    not negative. *)
Theorem analyzer_statistics_returned :
  forall data : income_data,
    less_than_labels_numbered (get_or (income_distribution data) []) ->
    exists r : Analyzer.income_statistics,
      Analyzer.calculate_income_statistics data = Ok r
      /\ Analyzer.median r = median_household_income data
      /\ (forall a, average_household_income data = Some a -> Analyzer.average r = a)
      /\ (average_household_income data = None ->
          Analyzer.average r
          = Analyzer.estimate_average_from_distribution
              (get_or (income_distribution data) []))
      /\ 0 <= Analyzer.top_75_threshold r.
Proof.
  intros data Hd. unfold Analyzer.calculate_income_statistics.
  unfold Analyzer.calculate_top_75_threshold, Analyzer.top_threshold_at.
  destruct (Analyzer.top_loop 25 0 (get_or (income_distribution data) []))
    as [r|] eqn:E.
  - destruct (top_loop_returns 25 0 _ r Hd E) as [v ->].
    eexists. split; [reflexivity|]. simpl. split; [reflexivity|].
    split; [intros a ->; reflexivity|].
    split; [intros ->; reflexivity|].
    apply (top_loop_non_negative 25 0 _ v E).
  - eexists. split; [reflexivity|]. simpl. split; [reflexivity|].
    split; [intros a ->; reflexivity|].
    split; [intros ->; reflexivity|].
    apply analyzer_after_loop_non_negative.
Qed.

Lemma analyzer_statistics_returned_witness :
  let d := [mk_bracket "<$20,000" 30; mk_bracket "$20,000-$39,999" 70] in
  less_than_labels_numbered d
  /\ exists r : Analyzer.income_statistics,
       Analyzer.calculate_income_statistics
         (mk_income_data None None None (Some 70000) None (Some d)) = Ok r
       /\ Analyzer.median r = Some 70000
       /\ Analyzer.average r = Analyzer.estimate_average_from_distribution d
       /\ 0 <= Analyzer.top_75_threshold r.
Proof.
  cbv zeta.
  assert (Hd : less_than_labels_numbered
                 [mk_bracket "<$20,000" 30; mk_bracket "$20,000-$39,999" 70]).
  { intros b [Hb|[Hb|[]]] _; subst b; vm_compute; discriminate. }
  split; [exact Hd|].
  destruct (analyzer_statistics_returned
              (mk_income_data None None None (Some 70000) None
                 (Some [mk_bracket "<$20,000" 30;
                        mk_bracket "$20,000-$39,999" 70])) Hd)
    as (r & Hr & Hmed & _ & Havg & Htop).
  exists r. split; [exact Hr|]. split; [exact Hmed|].
  split; [exact (Havg eq_refl) | exact Htop].
Defined.

(** On that dictionary the bracket that reaches 25 is the one labelled
    "<$20,000": the threshold is 20000 and the estimated average
    (10000 * 30 + 29999.5 * 70) / 100. *)
Example analyzer_statistics_on_less_than_label :
  match Analyzer.calculate_income_statistics
          (mk_income_data None None None (Some 70000) None
             (Some [mk_bracket "<$20,000" 30;
                    mk_bracket "$20,000-$39,999" 70])) with
  | Ok r =>
      Analyzer.top_75_threshold r == 20000
      /\ Analyzer.average r == 23999.65
      /\ Analyzer.median r = Some 70000
  | Raise _ => False
  end.
Proof. vm_compute. repeat split. Qed.

(** The failure that the hypothesis excludes: the statistics are lost to
    an [IndexError] although the average was supplied. *)
Example analyzer_statistics_raise :
  Analyzer.calculate_income_statistics
    (mk_income_data None None None None (Some 85000)
                    (Some [mk_bracket "<unknown>" 30]))
  = Raise IndexError.
Proof. reflexivity. Qed.

(** ** Brackets with a share of zero *)

Lemma percentile_loop_compat (target : Q) (d : distribution) :
  forall c c' : Q,
    c == c' ->
    Fetch.percentile_loop target c d = Fetch.percentile_loop target c' d.
Proof.
  induction d as [|b rest IH]; intros c c' Hc; simpl; [reflexivity|].
  assert (E : c + percentage b == c' + percentage b) by (rewrite Hc; reflexivity).
  rewrite (Qleb_comp _ _ (Qeq_refl target) _ _ E).
  destruct (Qle_bool target (c' + percentage b)); [reflexivity|].
  apply IH. exact E.
Qed.

Lemma interpolate_compat (target c c' : Q) (b : bracket) :
  c == c' -> Fetch.interpolate target c b = Fetch.interpolate target c' b.
Proof.
  intro Hc. unfold Fetch.interpolate.
  destruct (Qeq_bool (percentage b) 0); [reflexivity|].
  destruct (Fetch.extract_minimum_of_range (range b)) as [mn|];
    destruct (Fetch.extract_maximum_of_range (range b)) as [mx|]; try reflexivity.
  do 2 f_equal. apply py_round_comp. rewrite Hc. reflexivity.
Qed.

Lemma interpolated_loop_compat (target : Q) (d : distribution) :
  forall c c' : Q,
    c == c' ->
    Fetch.interpolated_loop target c d = Fetch.interpolated_loop target c' d.
Proof.
  induction d as [|b rest IH]; intros c c' Hc; simpl; [reflexivity|].
  assert (E : c + percentage b == c' + percentage b) by (rewrite Hc; reflexivity).
  rewrite (Qleb_comp _ _ (Qeq_refl target) _ _ E).
  destruct (Qle_bool target (c' + percentage b)).
  - rewrite (interpolate_compat target c c' b Hc). reflexivity.
  - apply IH. exact E.
Qed.

Lemma last_bracket_insert (pre post : distribution) (b : bracket) :
  post <> [] -> last_bracket (pre ++ b :: post) = last_bracket (pre ++ post).
Proof.
  intro Hpost. induction pre as [|a rest IH]; simpl.
  - destruct post as [|p post']; [contradiction | reflexivity].
  - rewrite IH.
    destruct (rest ++ b :: post) eqn:E1; [destruct rest; discriminate|].
    destruct (rest ++ post) eqn:E2; [|reflexivity].
    apply app_eq_nil in E2. destruct E2 as [_ E2]. contradiction.
Qed.

Lemma loops_skip_zero_share (target : Q) (pre post : distribution) (b : bracket) :
  forall c : Q,
    c < target ->
    percentage b == 0 ->
    Fetch.percentile_loop target c (pre ++ b :: post)
    = Fetch.percentile_loop target c (pre ++ post)
    /\ Fetch.interpolated_loop target c (pre ++ b :: post)
       = Fetch.interpolated_loop target c (pre ++ post).
Proof.
  induction pre as [|a rest IH]; intros c Hc Hb; simpl.
  - assert (E : c + percentage b == c) by (rewrite Hb; ring).
    assert (F : Qle_bool target (c + percentage b) = false).
    { apply Qle_bool_false. rewrite E. exact Hc. }
    rewrite F. split.
    + apply percentile_loop_compat. exact E.
    + apply interpolated_loop_compat. exact E.
  - destruct (Qle_bool target (c + percentage a)) eqn:E.
    + split; reflexivity.
    + apply Qle_bool_false in E. apply IH; assumption.
Qed.

(** X18.  A bracket with a share of 0 that is not the last one has no
    effect on the percentile estimators of [fetch_statscan_income.py], for
    any target above 0: the result is the same with it as without it,
    whatever its label.  (As the last bracket it does matter, since its
    maximum is returned when the target is never reached.) *)
Theorem zero_share_bracket_ignored :
  forall (target : Q) (pre post : distribution) (b : bracket),
    0 < target ->
    percentage b == 0 ->
    post <> [] ->
    Fetch.percentile_threshold_at target (pre ++ b :: post)
    = Fetch.percentile_threshold_at target (pre ++ post)
    /\ Fetch.interpolated_threshold_at target (pre ++ b :: post)
       = Fetch.interpolated_threshold_at target (pre ++ post).
Proof.
  intros target pre post b Hpos Hb Hpost.
  destruct (loops_skip_zero_share target pre post b 0 Hpos Hb) as [H1 H2].
  unfold Fetch.percentile_threshold_at, Fetch.interpolated_threshold_at,
    Fetch.after_loop.
  rewrite H1, H2, (last_bracket_insert pre post b Hpost). split; reflexivity.
Qed.

Lemma zero_share_bracket_ignored_witness :
  Fetch.percentile_threshold_at 75
    ([mk_bracket "$10,000 to $19,999" 50] ++ mk_bracket "Not stated" 0
     :: [mk_bracket "$20,000 to $29,999" 50])
  = Fetch.percentile_threshold_at 75
      ([mk_bracket "$10,000 to $19,999" 50] ++ [mk_bracket "$20,000 to $29,999" 50])
  /\ Fetch.interpolated_threshold_at 75
       ([mk_bracket "$10,000 to $19,999" 50] ++ mk_bracket "Not stated" 0
        :: [mk_bracket "$20,000 to $29,999" 50])
     = Fetch.interpolated_threshold_at 75
         ([mk_bracket "$10,000 to $19,999" 50] ++ [mk_bracket "$20,000 to $29,999" 50]).
Proof.
  apply (zero_share_bracket_ignored 75).
  - reflexivity.
  - reflexivity.
  - discriminate.
Defined.

(** The last bracket matters even with a share of 0. *)
Example zero_share_last_bracket :
  Fetch.percentile_threshold_at 75
    [mk_bracket "$10,000 to $19,999" 50; mk_bracket "$20,000 and over" 0] = 40000
  /\ Fetch.percentile_threshold_at 75 [mk_bracket "$10,000 to $19,999" 50] = 19999.
Proof. split; reflexivity. Qed.

(** ** The end of a bracket *)

(** X20.  A bracket with a share of 0 has no effect on the estimated
    average, wherever it stands and whatever its label. *)
Theorem zero_share_ignored_by_average :
  forall (pre post : distribution) (b : bracket),
    percentage b == 0 ->
    Analyzer.estimate_average_from_distribution (pre ++ b :: post)
    == Analyzer.estimate_average_from_distribution (pre ++ post).
Proof.
  intros pre post b Hb. unfold Analyzer.estimate_average_from_distribution.
  apply average_of_sums_eq. rewrite !fold_left_app. simpl.
  apply average_fold_sums_eq.
  destruct (average_step_cases (fold_left Analyzer.average_step pre (0, 0)) b)
    as [(m & _ & _ & ->)|[_ ->]]; [|apply sums_eq_refl].
  split; simpl; rewrite Hb; ring.
Qed.

Lemma zero_share_ignored_by_average_witness :
  Analyzer.estimate_average_from_distribution
    ([mk_bracket "<$20,000" 40] ++ mk_bracket "$500,000+" 0
     :: [mk_bracket "$20,000-$39,999" 60])
  == Analyzer.estimate_average_from_distribution
       ([mk_bracket "<$20,000" 40] ++ [mk_bracket "$20,000-$39,999" 60]).
Proof.
  apply (zero_share_ignored_by_average
           [mk_bracket "<$20,000" 40] [mk_bracket "$20,000-$39,999" 60]
           (mk_bracket "$500,000+" 0)).
  reflexivity.
Defined.

(** ** The two parsers *)

(** X21.  The two scripts read a label the same way when it has no marker
    at all, and when its only marker is a final "+" after a single number:
    the midpoint of [statscan_income_analyzer.py] is then the mean of the
    minimum and maximum of [fetch_statscan_income.py]. *)
Theorem midpoint_is_mean_of_bounds :
  forall (s : string) (mn mx m : Q),
    Fetch.extract_minimum_of_range s = Some mn ->
    Fetch.extract_maximum_of_range s = Some mx ->
    Analyzer.extract_midpoint_of_range s = Some m ->
    Fetch.is_under (Fetch.clean s) = false ->
    PyStr.contains "<" (Fetch.clean s) = false ->
    (Fetch.is_over (Fetch.clean s) = false
     /\ PyStr.contains ">" (Fetch.clean s) = false
     /\ PyStr.contains "+" (Fetch.clean s) = false)
    \/ (Fetch.is_over (Fetch.clean s) = true
        /\ PyStr.contains "+" (Fetch.clean s) = true
        /\ List.length (PyStr.findall_digits (Fetch.clean s)) = 1%nat) ->
    m == (mn + mx) / 2.
Proof.
  intros s mn mx m Hmn Hmx Hm Hu Hlt Hkind.
  unfold Fetch.extract_minimum_of_range in Hmn.
  unfold Fetch.extract_maximum_of_range in Hmx.
  unfold Analyzer.extract_midpoint_of_range in Hm.
  change (Analyzer.clean s) with (Fetch.clean s) in Hm.
  rewrite Hu in Hmn, Hmx. rewrite Hlt in Hm.
  destruct Hkind as [(Ho & Hgt & Hplus)|(Ho & Hplus & Hone)];
    rewrite Ho in Hmn, Hmx; rewrite Hplus in Hm; try rewrite Hgt in Hm;
    destruct (PyStr.findall_digits (Fetch.clean s)) as [|n0 [|n1 [|n2 ns]]];
    try discriminate; simpl in Hm;
    injection Hmn as <-; injection Hmx as <-;
    try (rewrite orb_true_r in Hm); injection Hm as <-;
    unfold PyStr.float_of_digits; try rewrite inject_Z_plus; field.
Qed.

Lemma midpoint_is_mean_of_bounds_witness :
  200000 * 1.5 == (200000 + 200000 * 2) / 2.
Proof.
  apply (midpoint_is_mean_of_bounds "$200,000+" 200000 (200000 * 2) (200000 * 1.5)).
  - reflexivity.
  - reflexivity.
  - reflexivity.
  - reflexivity.
  - reflexivity.
  - right. repeat split.
Defined.

(** Where the two parsers differ: "<" is a marker for the analyzer only,
    "under" and "over" for the range parser only. *)
Example parsers_differ_on_markers :
  Analyzer.extract_midpoint_of_range "<$20,000" = Some (20000 / 2)
  /\ Fetch.extract_minimum_of_range "<$20,000" = Some 20000
  /\ Fetch.extract_maximum_of_range "<$20,000" = Some 20000
  /\ Analyzer.extract_midpoint_of_range "$200,000 and over" = Some 200000
  /\ Fetch.extract_minimum_of_range "$200,000 and over" = Some 200000
  /\ Fetch.extract_maximum_of_range "$200,000 and over" = Some (200000 * 2).
Proof. repeat split. Qed.

Lemma range_bounds_parse_together_witness :
  Fetch.extract_minimum_of_range "Not stated" = None
  <-> Fetch.extract_maximum_of_range "Not stated" = None.
Proof.
  destruct (range_bounds_parse_together "Not stated") as (_ & _ & H). exact H.
Defined.

(** * The scripts in their own arithmetic *)

(** ** Rounding to the nearest integer *)

Lemma py_round_nearest_even (q : Q) : Py.nearest_even (py_round q) q.
Proof.
  unfold Py.nearest_even, py_round.
  pose proof (Qfloor_le q) as Hlo. pose proof (Qlt_floor q) as Hhi.
  rewrite inject_Z_plus in Hhi. change (inject_Z 1) with 1 in Hhi.
  destruct (Qcompare_spec (q - inject_Z (Qfloor q)) (1 # 2)) as [E|E|E].
  - destruct (Z.even (Qfloor q)) eqn:Ev.
    + split; [apply Qabs_Qle_condition; split; lra | intros _; exact Ev].
    + rewrite inject_Z_plus. change (inject_Z 1) with 1. split.
      * apply Qabs_Qle_condition. split; lra.
      * intros _. rewrite Z.add_1_r, Z.even_succ, <- Z.negb_even, Ev. reflexivity.
  - split; [apply Qabs_Qle_condition; split; lra|].
    intro T. exfalso.
    assert (Qabs (inject_Z (Qfloor q) - q) < 1 # 2)
      by (apply Qabs_Qlt_condition; split; lra).
    lra.
  - rewrite inject_Z_plus. change (inject_Z 1) with 1.
    split; [apply Qabs_Qle_condition; split; lra|].
    intro T. exfalso.
    assert (Qabs (inject_Z (Qfloor q) + 1 - q) < 1 # 2)
      by (apply Qabs_Qlt_condition; split; lra).
    lra.
Qed.

(** ** The two arithmetics keep the laws *)

Lemma exact_laws : Py.laws Py.exact.
Proof.
  constructor; simpl.
  - intros c p t Hp. apply Qeq_bool_iff in Hp.
    apply Qleb_comp; [reflexivity | rewrite Hp; ring].
  - intros x y. unfold Qmult. f_equal; [apply Z.mul_comm | apply Pos.mul_comm].
  - intros x v H. injection H as <-. exists x.
    split; [reflexivity | apply py_round_nearest_even].
  - intros x q _. eexists. reflexivity.
  - intros x e H. discriminate.
  - reflexivity.
  - intros x H. apply negb_true_iff in H. apply Qle_bool_false in H.
    destruct (Qeq_bool x 0) eqn:E; [|reflexivity].
    apply Qeq_bool_iff in E. exfalso. change (inject_Z 0) with 0 in H. lra.
Qed.

Lemma binary64_is_zero (p : spec_float) :
  Py.is_zero Py.binary64 p = true -> exists s, p = S754_zero s.
Proof.
  destruct p as [s|s| |s m e]; simpl; unfold SFeqb; simpl; intro H.
  - exists s. reflexivity.
  - destruct s; discriminate.
  - discriminate.
  - destruct s; discriminate.
Qed.

Lemma binary64_laws : Py.laws Py.binary64.
Proof.
  constructor.
  - intros c p t Hp. destruct (binary64_is_zero p Hp) as [s ->]. simpl.
    destruct c as [sc|sc| |sc mc ec]; try reflexivity.
    destruct sc; destruct s; destruct t as [st|st| |st mt et]; reflexivity.
  - intros x y. simpl.
    destruct x as [sx|sx| |sx mx ex]; destruct y as [sy|sy| |sy my ey];
      simpl; try reflexivity; try (rewrite xorb_comm; reflexivity).
    f_equal; [apply xorb_comm | f_equal; apply Pos.mul_comm | apply Z.add_comm].
  - intros x v H. simpl in *. unfold Py.float_round in H.
    destruct x as [s|s| |s m e]; try discriminate; simpl in H;
      injection H as <-; eexists; (split; [reflexivity | apply py_round_nearest_even]).
  - intros x q H. simpl in *.
    destruct x as [s|s| |s m e]; try discriminate; eexists; reflexivity.
  - intros x e H. simpl in *. unfold Py.float_round in H.
    destruct x as [s|s| |s m e']; simpl in H; try discriminate;
      injection H as <-; [left | right]; reflexivity.
  - reflexivity.
  - intros x H. simpl in *.
    destruct x as [s|s| |s m e]; try discriminate;
      destruct s; try discriminate; reflexivity.
Qed.

(** ** The scan, in any arithmetic *)

Section ScanAnyArithmetic.

Variable A : Py.arith.
Variable target : Py.num A.

Lemma py_cumulative_from_snoc (c : Py.num A) (pre : Py.distribution A) (b : Py.bracket A) :
  Py.cumulative_from A c (pre ++ [b])
  = Py.add A (Py.cumulative_from A c pre) (Py.percentage b).
Proof. unfold Py.cumulative_from. rewrite fold_left_app. reflexivity. Qed.

Lemma py_cumulative_snoc (pre : Py.distribution A) (b : Py.bracket A) :
  Py.cumulative A (pre ++ [b])
  = Py.add A (Py.cumulative A pre) (Py.percentage b).
Proof. apply py_cumulative_from_snoc. Qed.

Lemma py_stays_below_prefixes_from (c : Py.num A) (pre : Py.distribution A) :
  Py.stays_below A target c pre <->
  (forall n, (1 <= n <= List.length pre)%nat ->
             Py.geb A (Py.cumulative_from A c (firstn n pre)) target = false).
Proof.
  revert c. induction pre as [|b rest IH]; intro c; simpl.
  - split; [intros _ n Hn; lia | trivial].
  - split.
    + intros [Hb Hrest] n Hn. destruct n as [|n]; [lia|]. simpl.
      destruct n as [|n]; [simpl; exact Hb|].
      apply (proj1 (IH _) Hrest (S n)). simpl in Hn. lia.
    + intro H. split.
      * apply (H 1%nat). simpl. lia.
      * apply IH. intros n Hn. apply (H (S n)). simpl. lia.
Qed.

Lemma py_stays_below_prefixes (pre : Py.distribution A) :
  Py.stays_below A target (Py.of_int A 0) pre <-> Py.prefixes_below A target pre.
Proof. apply py_stays_below_prefixes_from. Qed.

(** A distribution whose running sum reaches the target splits at the
    first bracket where it does. *)
Lemma py_first_crossing_from (c : Py.num A) (d : Py.distribution A) :
  (exists n, (1 <= n <= List.length d)%nat
             /\ Py.geb A (Py.cumulative_from A c (firstn n d)) target = true) ->
  exists pre b post,
    d = pre ++ b :: post /\ Py.stays_below A target c pre
    /\ Py.geb A (Py.add A (Py.cumulative_from A c pre) (Py.percentage b)) target = true.
Proof.
  revert c. induction d as [|b rest IH]; intros c [n [Hn Hreach]].
  - simpl in Hn. lia.
  - destruct (Py.geb A (Py.add A c (Py.percentage b)) target) eqn:E.
    + exists [], b, rest. simpl. repeat split. exact E.
    + destruct n as [|n]; [lia|]. simpl in Hreach.
      destruct n as [|n].
      * simpl in Hreach. congruence.
      * destruct (IH (Py.add A c (Py.percentage b)))
          as (pre & b' & post & Hd & Hpre & Hb').
        { exists (S n). split; [simpl in Hn; lia | exact Hreach]. }
        exists (b :: pre), b', post. subst rest. simpl. repeat split; assumption.
Qed.

Lemma py_first_crossing (d : Py.distribution A) :
  Py.reaches A target d ->
  exists pre b post,
    d = pre ++ b :: post /\ Py.stays_below A target (Py.of_int A 0) pre
    /\ Py.geb A (Py.add A (Py.cumulative A pre) (Py.percentage b)) target = true.
Proof. intro H. apply py_first_crossing_from. exact H. Qed.


Lemma py_percentile_loop_crossing (c : Py.num A) (pre post : Py.distribution A)
      (b : Py.bracket A) :
  Py.stays_below A target c pre ->
  Py.geb A (Py.add A (Py.cumulative_from A c pre) (Py.percentage b)) target = true ->
  PyFetch.percentile_loop A target c (pre ++ b :: post)
  = Some (Py.or_zero A (PyFetch.extract_minimum_of_range A (Py.range b))).
Proof.
  revert c. induction pre as [|a rest IH]; intros c Hpre Hb; simpl in *.
  - rewrite Hb. reflexivity.
  - destruct Hpre as [Ha Hrest]. rewrite Ha. apply IH; assumption.
Qed.

Lemma py_percentile_loop_exhausted (c : Py.num A) (d : Py.distribution A) :
  Py.stays_below A target c d -> PyFetch.percentile_loop A target c d = None.
Proof.
  revert c. induction d as [|a rest IH]; intros c Hd; simpl in *; [reflexivity|].
  destruct Hd as [Ha Hrest]. rewrite Ha. apply IH. exact Hrest.
Qed.

Lemma py_interpolated_loop_crossing (c : Py.num A) (pre post : Py.distribution A)
      (b : Py.bracket A) :
  Py.stays_below A target c pre ->
  Py.geb A (Py.add A (Py.cumulative_from A c pre) (Py.percentage b)) target = true ->
  PyFetch.interpolated_loop A target c (pre ++ b :: post)
  = Some (PyFetch.interpolate A target (Py.cumulative_from A c pre) b).
Proof.
  revert c. induction pre as [|a rest IH]; intros c Hpre Hb; simpl in *.
  - rewrite Hb. reflexivity.
  - destruct Hpre as [Ha Hrest]. rewrite Ha. apply IH; assumption.
Qed.

Lemma py_top_loop_crossing (c : Py.num A) (pre post : Py.distribution A)
      (b : Py.bracket A) (n0 : string) (ns : list string) :
  Py.stays_below A target c pre ->
  Py.geb A (Py.add A (Py.cumulative_from A c pre) (Py.percentage b)) target = true ->
  PyStr.findall_digits (Analyzer.clean (Py.range b)) = n0 :: ns ->
  PyAnalyzer.top_loop A target c (pre ++ b :: post)
  = Some (Ok (Py.of_int A (PyStr.int_of_digits n0))).
Proof.
  revert c. induction pre as [|a rest IH]; intros c Hpre Hb Hnum; simpl in *.
  - rewrite Hb. unfold PyAnalyzer.at_crossing. rewrite Hnum.
    destruct (PyStr.contains "<" (Analyzer.clean (Py.range b))); reflexivity.
  - destruct Hpre as [Ha Hrest]. rewrite Ha. apply IH; assumption.
Qed.

(** The running sum before the first crossing is below the target. *)
Lemma py_before_crossing (c : Py.num A) (pre : Py.distribution A) :
  Py.geb A c target = false ->
  Py.stays_below A target c pre ->
  Py.geb A (Py.cumulative_from A c pre) target = false.
Proof.
  intros Hc Hpre. destruct pre as [|a rest]; [exact Hc|].
  rewrite <- (firstn_all (a :: rest)).
  apply (proj1 (py_stays_below_prefixes_from c (a :: rest)) Hpre). simpl. lia.
Qed.

(** The share of the bracket where the running sum first reaches a target
    above 0 is not 0. *)
Lemma py_crossing_share_not_zero (L : Py.laws A) (c : Py.num A)
      (pre : Py.distribution A) (b : Py.bracket A) :
  Py.geb A c target = false ->
  Py.stays_below A target c pre ->
  Py.geb A (Py.add A (Py.cumulative_from A c pre) (Py.percentage b)) target = true ->
  Py.is_zero A (Py.percentage b) = false.
Proof.
  intros Hc Hpre Hb.
  destruct (Py.is_zero A (Py.percentage b)) eqn:E; [|reflexivity].
  rewrite (Py.add_zero_geb A L _ _ _ E) in Hb.
  rewrite (py_before_crossing c pre Hc Hpre) in Hb. discriminate.
Qed.

End ScanAnyArithmetic.

(** ** Boundary mode *)



(** In binary64 the 75th-percentile function answers 40000 on these
    shares: the fourth bracket does not reach 75. *)
Example boundary_mode_binary64_rounding :
  PyFetch.calculate_75th_percentile_threshold_from_distribution Py.binary64
    PyFetch.shares_rounding_below_75 = Py.float_of_int 40000
  /\ Py.geb Py.binary64
       (Py.cumulative Py.binary64 (firstn 4 PyFetch.shares_rounding_below_75))
       (Py.float_of_int 75) = false.
Proof. split; vm_compute; reflexivity. Qed.


(** The same function on "Under $10,000", where its comment says "Return
    the lower bound of this bracket": it returns 10000. *)
Example top_75_on_under_label :
  PyAnalyzer.calculate_top_75_threshold Py.binary64
    [ Py.bracket64 "Under $10,000" (Py.decimal 300 1);
      Py.bracket64 "$20,000 to $29,999" (Py.decimal 700 1) ]
  = Ok (Py.float_of_int 10000).
Proof. vm_compute. reflexivity. Qed.

(** ** Interpolated mode *)

(** C2, in the arithmetic of the code (any arithmetic that keeps the laws,
    binary64 included).  When the running sum, as the loop accumulates it,
    stays below a target above 0 over the brackets [pre] and reaches it at
    the next bracket [b], whose bounds both parse, the interpolated
    estimator (target 25 in
    [calculate_bottom_25_threshold_from_distribution]) rounds
    min + ((target - running sum before b) / share of b) * (max - min),
    each operation being the one of the arithmetic: the share of [b] is not
    0, the result is [round] of that threshold, and when the threshold is
    finite the result is the integer nearest to it, the even one of two
    equally near. *)
Theorem interpolated_mode_rounds_interpolation :
  forall (A : Py.arith) (target : Py.num A)
         (pre post : Py.distribution A) (b : Py.bracket A) (mn mx : Py.num A),
    Py.laws A ->
    Py.geb A (Py.of_int A 0) target = false ->
    Py.prefixes_below A target pre ->
    Py.geb A (Py.cumulative A (pre ++ [b])) target = true ->
    PyFetch.extract_minimum_of_range A (Py.range b) = Some mn ->
    PyFetch.extract_maximum_of_range A (Py.range b) = Some mx ->
    Py.is_zero A (Py.percentage b) = false
    /\ PyFetch.interpolated_threshold_at A target (pre ++ b :: post)
       = match Py.round A (interpolation_in A target (Py.cumulative A pre)
                             (Py.percentage b) mn mx) with
         | Ok v => Ok (Py.of_int A v)
         | Raise e => Raise e
         end
    /\ (forall q,
          Py.value A (interpolation_in A target (Py.cumulative A pre)
                        (Py.percentage b) mn mx) = Some q ->
          exists v,
            PyFetch.interpolated_threshold_at A target (pre ++ b :: post)
            = Ok (Py.of_int A v)
            /\ Py.nearest_even v q).
Proof.
  intros A target pre post b mn mx L Hpos Hpre Hb Hmn Hmx.
  apply py_stays_below_prefixes in Hpre. rewrite py_cumulative_snoc in Hb.
  pose proof (py_crossing_share_not_zero A target L _ pre b Hpos Hpre Hb) as Hshare.
  assert (Hres : PyFetch.interpolated_threshold_at A target (pre ++ b :: post)
                 = match Py.round A (interpolation_in A target (Py.cumulative A pre)
                                       (Py.percentage b) mn mx) with
                   | Ok v => Ok (Py.of_int A v)
                   | Raise e => Raise e
                   end).
  { unfold PyFetch.interpolated_threshold_at.
    rewrite (py_interpolated_loop_crossing A target _ pre post b Hpre Hb).
    unfold PyFetch.interpolate, Py.div. rewrite Hshare, Hmn, Hmx.
    unfold PyFetch.threshold, interpolation_in.
    rewrite (Py.mul_comm A L). reflexivity. }
  split; [exact Hshare|]. split; [exact Hres|].
  intros q Hq. rewrite Hres.
  destruct (Py.round_finite A L _ q Hq) as [v Hv].
  destruct (Py.round_nearest A L _ v Hv) as (q' & Hq' & Hnear).
  rewrite Hq in Hq'. injection Hq' as <-.
  exists v. rewrite Hv. split; [reflexivity | exact Hnear].
Qed.

Lemma interpolated_mode_rounds_interpolation_witness :
  exists v,
    PyFetch.interpolated_threshold_at Py.binary64 (Py.float_of_int 25)
      ([Py.bracket64 "Under $10,000" (Py.decimal 191 1)]
       ++ Py.bracket64 "$10,000 to $19,999" (Py.decimal 118 1) :: [])
    = Ok (Py.float_of_int v)
    /\ Py.nearest_even v (8246062330413055 # 549755813888).
Proof.
  destruct (interpolated_mode_rounds_interpolation Py.binary64 (Py.float_of_int 25)
              [Py.bracket64 "Under $10,000" (Py.decimal 191 1)] []
              (Py.bracket64 "$10,000 to $19,999" (Py.decimal 118 1))
              (Py.float_of_int 10000) (Py.float_of_int 19999)
              binary64_laws)
    as (_ & _ & H).
  - reflexivity.
  - intros n Hn. simpl in Hn. destruct n as [|[|n]]; try lia. vm_compute. reflexivity.
  - vm_compute. reflexivity.
  - reflexivity.
  - reflexivity.
  - apply H. vm_compute. reflexivity.
Defined.

(** In binary64 the threshold on the shares 19.1 and 11.8 is
    14999.499999999998 and the result 14999, where exact arithmetic has the
    tie 14999.5 and 15000; on the shares 7.1, 9.2, 8.7 and 75.0 the running
    sum after three brackets is below 25 and the result, interpolated in
    the fourth bracket, is 30000. *)
Example interpolated_mode_binary64_rounding :
  PyFetch.calculate_bottom_25_threshold_from_distribution Py.binary64
    PyFetch.shares_rounding_below_tie = Ok (Py.float_of_int 14999)
  /\ PyFetch.calculate_bottom_25_threshold_from_distribution Py.binary64
       PyFetch.shares_rounding_below_25 = Ok (Py.float_of_int 30000)
  /\ PyAnalyzer.calculate_top_75_threshold Py.binary64
       PyFetch.shares_rounding_below_25 = Ok (Py.float_of_int 30000).
Proof. repeat split; vm_compute; reflexivity. Qed.

(** ** Labels without a number *)

Lemma py_average_step_skips (A : Py.arith) (acc : Py.num A * Py.num A)
      (b : Py.bracket A) :
  PyAnalyzer.extract_midpoint_of_range A (Py.range b) = None ->
  PyAnalyzer.average_step A acc b = acc.
Proof. intro H. unfold PyAnalyzer.average_step. rewrite H. reflexivity. Qed.

(** C7, as the code has it, in the arithmetic of the code.  A label without
    a number gives no minimum, no maximum and no midpoint.  The average
    estimator leaves the bracket out: its result is the same with the
    bracket, whatever its share, as without it.  The percentile estimators
    of [fetch_statscan_income.py] do count its share in the running sum:
    when it is the first bracket at which the running sum reaches the
    target they return 0 (the interpolated one for a target above 0, in an
    arithmetic that keeps the laws). *)
Theorem unparseable_bracket_in_estimators :
  forall (A : Py.arith) (b : Py.bracket A),
    PyStr.findall_digits (Fetch.clean (Py.range b)) = [] ->
    PyFetch.extract_minimum_of_range A (Py.range b) = None
    /\ PyFetch.extract_maximum_of_range A (Py.range b) = None
    /\ PyAnalyzer.extract_midpoint_of_range A (Py.range b) = None
    /\ (forall pre post,
           PyAnalyzer.estimate_average_from_distribution A (pre ++ b :: post)
           = PyAnalyzer.estimate_average_from_distribution A (pre ++ post))
    /\ (forall target pre post,
           Py.prefixes_below A target pre ->
           Py.geb A (Py.cumulative A (pre ++ [b])) target = true ->
           PyFetch.percentile_threshold_at A target (pre ++ b :: post)
           = Py.of_int A 0
           /\ (Py.laws A ->
               Py.geb A (Py.of_int A 0) target = false ->
               PyFetch.interpolated_threshold_at A target (pre ++ b :: post)
               = Ok (Py.of_int A 0))).
Proof.
  intros A b Hnum.
  assert (Hmin : PyFetch.extract_minimum_of_range A (Py.range b) = None).
  { unfold PyFetch.extract_minimum_of_range. rewrite Hnum.
    destruct (Fetch.is_under _); [|destruct (Fetch.is_over _)]; reflexivity. }
  assert (Hmax : PyFetch.extract_maximum_of_range A (Py.range b) = None).
  { unfold PyFetch.extract_maximum_of_range. rewrite Hnum.
    destruct (Fetch.is_under _); [|destruct (Fetch.is_over _)]; reflexivity. }
  assert (Hmid : PyAnalyzer.extract_midpoint_of_range A (Py.range b) = None).
  { unfold PyAnalyzer.extract_midpoint_of_range.
    change (Analyzer.clean (Py.range b)) with (Fetch.clean (Py.range b)).
    rewrite Hnum. reflexivity. }
  split; [exact Hmin|]. split; [exact Hmax|]. split; [exact Hmid|]. split.
  - intros pre post.
    unfold PyAnalyzer.estimate_average_from_distribution.
    rewrite !fold_left_app. simpl.
    rewrite (py_average_step_skips A _ b Hmid). reflexivity.
  - intros target pre post Hpre Hb.
    apply py_stays_below_prefixes in Hpre. rewrite py_cumulative_snoc in Hb.
    split.
    + unfold PyFetch.percentile_threshold_at.
      rewrite (py_percentile_loop_crossing A target _ pre post b Hpre Hb).
      rewrite Hmin. reflexivity.
    + intros L Hpos.
      pose proof (py_crossing_share_not_zero A target L _ pre b Hpos Hpre Hb) as Hshare.
      unfold PyFetch.interpolated_threshold_at.
      rewrite (py_interpolated_loop_crossing A target _ pre post b Hpre Hb).
      unfold PyFetch.interpolate, Py.div. rewrite Hshare, Hmin. reflexivity.
Qed.

Lemma unparseable_bracket_in_estimators_witness :
  PyFetch.percentile_threshold_at Py.binary64 (Py.float_of_int 75)
    ([Py.bracket64 "$10,000 to $19,999" (Py.decimal 253 1)]
     ++ Py.bracket64 "Not stated" (Py.decimal 500 1)
     :: [Py.bracket64 "$20,000 to $29,999" (Py.decimal 247 1)])
  = Py.float_of_int 0
  /\ PyAnalyzer.estimate_average_from_distribution Py.binary64
       ([Py.bracket64 "$10,000 to $19,999" (Py.decimal 253 1)]
        ++ Py.bracket64 "Not stated" (Py.decimal 500 1)
        :: [Py.bracket64 "$20,000 to $29,999" (Py.decimal 247 1)])
     = PyAnalyzer.estimate_average_from_distribution Py.binary64
         ([Py.bracket64 "$10,000 to $19,999" (Py.decimal 253 1)]
          ++ [Py.bracket64 "$20,000 to $29,999" (Py.decimal 247 1)]).
Proof.
  destruct (unparseable_bracket_in_estimators Py.binary64
              (Py.bracket64 "Not stated" (Py.decimal 500 1)) eq_refl)
    as (_ & _ & _ & Havg & Hpct).
  split; [|apply Havg].
  apply (Hpct (Py.float_of_int 75)
              [Py.bracket64 "$10,000 to $19,999" (Py.decimal 253 1)]
              [Py.bracket64 "$20,000 to $29,999" (Py.decimal 247 1)]).
  - intros n Hn. simpl in Hn. destruct n as [|[|n]]; try lia. vm_compute. reflexivity.
  - vm_compute. reflexivity.
Defined.

(** In binary64, on the shares 10.0, 25.3, 28.9 and 10.8 with the fourth
    label "Not stated", the running sum after four brackets is below 75:
    the label without a number is not where the target is reached, and the
    result is 40000, not 0. *)
Example unparseable_bracket_binary64_rounding :
  PyFetch.calculate_75th_percentile_threshold_from_distribution Py.binary64
    [ Py.bracket64 "Under $10,000" (Py.decimal 100 1);
      Py.bracket64 "$10,000 to $19,999" (Py.decimal 253 1);
      Py.bracket64 "$20,000 to $29,999" (Py.decimal 289 1);
      Py.bracket64 "Not stated" (Py.decimal 108 1);
      Py.bracket64 "$40,000 and over" (Py.decimal 250 1) ]
  = Py.float_of_int 40000
  /\ PyFetch.calculate_bottom_25_threshold_from_distribution Py.binary64
       [ Py.bracket64 "Under $10,000" (Py.decimal 71 1);
         Py.bracket64 "$10,000 to $19,999" (Py.decimal 92 1);
         Py.bracket64 "Not stated" (Py.decimal 87 1);
         Py.bracket64 "$30,000 to $39,999" (Py.decimal 750 1) ]
     = Ok (Py.float_of_int 30000).
Proof. split; vm_compute; reflexivity. Qed.

(** C7, as stated, fails for the percentile estimators, in binary64 as in
    exact arithmetic: the share of a bracket without a number is counted.
    With "Not stated" at 80% in front of it, a bracket "$10,000 to $19,999"
    at 20% gives a 75th-percentile threshold of 0; alone it gives 19999.
    The same holds for the interpolated estimator with "Not stated" at
    30%. *)
Lemma unparseable_bracket_counts_in_percentile :
  PyStr.findall_digits (Fetch.clean "Not stated") = []
  /\ PyFetch.calculate_75th_percentile_threshold_from_distribution Py.binary64
       [ Py.bracket64 "Not stated" (Py.decimal 800 1);
         Py.bracket64 "$10,000 to $19,999" (Py.decimal 200 1) ]
     = Py.float_of_int 0
  /\ PyFetch.calculate_75th_percentile_threshold_from_distribution Py.binary64
       [ Py.bracket64 "$10,000 to $19,999" (Py.decimal 200 1) ]
     = Py.float_of_int 19999
  /\ PyFetch.calculate_bottom_25_threshold_from_distribution Py.binary64
       [ Py.bracket64 "Not stated" (Py.decimal 300 1);
         Py.bracket64 "$10,000 to $19,999" (Py.decimal 200 1) ]
     = Ok (Py.float_of_int 0)
  /\ PyFetch.calculate_bottom_25_threshold_from_distribution Py.binary64
       [ Py.bracket64 "$10,000 to $19,999" (Py.decimal 200 1) ]
     = Ok (Py.float_of_int 19999)
  /\ Py.float_of_int 0 <> Py.float_of_int 19999.
Proof.
  repeat split; try (vm_compute; reflexivity). vm_compute. discriminate.
Qed.

(** ** More on the percentile estimators, in the arithmetic of the code *)

(** X5.  Both percentile estimators of [fetch_statscan_income.py] stop at
    the first bracket at which the running sum, as the loop accumulates it,
    reaches the target: once it has, brackets appended to the distribution
    do not change the result.  This holds in any arithmetic, binary64
    included. *)
Theorem brackets_after_crossing_not_read :
  forall (A : Py.arith) (target : Py.num A) (d extra : Py.distribution A),
    Py.reaches A target d ->
    PyFetch.percentile_threshold_at A target (d ++ extra)
    = PyFetch.percentile_threshold_at A target d
    /\ PyFetch.interpolated_threshold_at A target (d ++ extra)
       = PyFetch.interpolated_threshold_at A target d.
Proof.
  intros A target d extra Hreach.
  destruct (py_first_crossing A target d Hreach) as (pre & b & post & -> & Hpre & Hb).
  rewrite <- app_assoc. simpl.
  unfold PyFetch.percentile_threshold_at, PyFetch.interpolated_threshold_at.
  rewrite !(py_percentile_loop_crossing A target _ pre _ b Hpre Hb).
  rewrite !(py_interpolated_loop_crossing A target _ pre _ b Hpre Hb).
  split; reflexivity.
Qed.

Lemma brackets_after_crossing_not_read_witness :
  PyFetch.percentile_threshold_at Py.binary64 (Py.float_of_int 75)
    (PyFetch.shares_rounding_below_75
     ++ [Py.bracket64 "$500,000 and over" (Py.decimal 54 1)])
  = PyFetch.percentile_threshold_at Py.binary64 (Py.float_of_int 75)
      PyFetch.shares_rounding_below_75
  /\ PyFetch.interpolated_threshold_at Py.binary64 (Py.float_of_int 75)
       (PyFetch.shares_rounding_below_75
        ++ [Py.bracket64 "$500,000 and over" (Py.decimal 54 1)])
     = PyFetch.interpolated_threshold_at Py.binary64 (Py.float_of_int 75)
         PyFetch.shares_rounding_below_75.
Proof.
  apply (brackets_after_crossing_not_read Py.binary64 (Py.float_of_int 75)).
  exists 5%nat. split; [simpl; lia | vm_compute; reflexivity].
Defined.

(** In binary64 the first four of those brackets do not reach 75, although
    their exact shares sum to 75: a fifth bracket then changes the
    result. *)
Example bracket_after_exact_sum_is_read :
  Py.reaches Py.binary64 (Py.float_of_int 75)
    (firstn 4 PyFetch.shares_rounding_below_75) -> False.
Proof.
  intros (n & Hn & H). simpl in Hn.
  destruct n as [|[|[|[|[|n]]]]]; try lia; vm_compute in H; discriminate.
Qed.

(** X11.  The two scripts agree where their label notations meet, in any
    arithmetic: on a distribution whose running sum reaches the target and
    whose labels all hold a number and none the word "under",
    [calculate_top_75_threshold], run with the target of the
    75th-percentile function, returns the same value as that function. *)
Theorem boundary_estimators_agree_on_plain_labels :
  forall (A : Py.arith) (target : Py.num A) (d : Py.distribution A),
    Py.reaches A target d ->
    (forall b, In b d ->
       Fetch.is_under (Fetch.clean (Py.range b)) = false
       /\ PyStr.findall_digits (Fetch.clean (Py.range b)) <> []) ->
    PyAnalyzer.top_threshold_at A target d
    = Ok (PyFetch.percentile_threshold_at A target d).
Proof.
  intros A target d Hreach Hlabels.
  destruct (py_first_crossing A target d Hreach) as (pre & b & post & -> & Hpre & Hb).
  destruct (Hlabels b) as [Hu Hnum]; [apply in_or_app; right; left; reflexivity|].
  destruct (PyStr.findall_digits (Fetch.clean (Py.range b))) as [|n0 ns] eqn:E;
    [contradiction|].
  unfold PyAnalyzer.top_threshold_at, PyFetch.percentile_threshold_at.
  rewrite (py_top_loop_crossing A target _ pre post b n0 ns Hpre Hb E).
  rewrite (py_percentile_loop_crossing A target _ pre post b Hpre Hb).
  unfold PyFetch.extract_minimum_of_range. rewrite Hu, E.
  destruct (Fetch.is_over (Fetch.clean (Py.range b))); reflexivity.
Qed.

Lemma boundary_estimators_agree_on_plain_labels_witness :
  PyAnalyzer.top_threshold_at Py.binary64 (Py.float_of_int 75)
    [ Py.bracket64 "$10,000 to $19,999" (Py.decimal 253 1);
      Py.bracket64 "$20,000 to $29,999" (Py.decimal 289 1);
      Py.bracket64 "$30,000 and over" (Py.decimal 458 1) ]
  = Ok (PyFetch.percentile_threshold_at Py.binary64 (Py.float_of_int 75)
          [ Py.bracket64 "$10,000 to $19,999" (Py.decimal 253 1);
            Py.bracket64 "$20,000 to $29,999" (Py.decimal 289 1);
            Py.bracket64 "$30,000 and over" (Py.decimal 458 1) ]).
Proof.
  apply (boundary_estimators_agree_on_plain_labels Py.binary64 (Py.float_of_int 75)).
  - exists 3%nat. split; [simpl; lia | vm_compute; reflexivity].
  - intros b [<-|[<-|[<-|[]]]]; (split; [reflexivity | vm_compute; discriminate]).
Defined.

(** ** [calculate_income_statistics] of fetch_statscan_income.py *)

Lemma py_interpolated_loop_no_zero_division (A : Py.arith) (L : Py.laws A)
      (target : Py.num A) (d : Py.distribution A) :
  forall (c : Py.num A) (r : result (Py.num A)),
    Py.geb A c target = false ->
    PyFetch.interpolated_loop A target c d = Some r ->
    r <> Raise ZeroDivisionError.
Proof.
  induction d as [|b rest IH]; intros c r Hc H; simpl in H; [discriminate|].
  destruct (Py.geb A (Py.add A c (Py.percentage b)) target) eqn:E.
  - injection H as <-.
    assert (Hshare : Py.is_zero A (Py.percentage b) = false).
    { destruct (Py.is_zero A (Py.percentage b)) eqn:Z; [|reflexivity].
      rewrite (Py.add_zero_geb A L _ _ _ Z) in E. congruence. }
    unfold PyFetch.interpolate, Py.div. rewrite Hshare.
    destruct (PyFetch.extract_minimum_of_range A (Py.range b));
      destruct (PyFetch.extract_maximum_of_range A (Py.range b));
      try discriminate.
    destruct (Py.round A _) as [v|e] eqn:R; [discriminate|].
    intro Hbad. injection Hbad as ->.
    destruct (Py.round_raises A L _ _ R); discriminate.
  - apply (IH _ r E H).
Qed.

(** X16.  [calculate_income_statistics] of [fetch_statscan_income.py]
    never fails on a division by zero, for any input dictionary, with any
    key missing and with any distribution, in an arithmetic that keeps the
    laws (binary64 does): the interpolation divides by the share of the
    bracket that reaches 25, which is not 0, and the ratio of median to
    average is computed only for an average above 0.  When it returns, the
    missing average and median count as 0, the ratio is 0 for an average
    that is not above 0 and the quotient median / average of the
    arithmetic otherwise; with the distribution missing it returns, with
    both thresholds 0. *)
Theorem fetch_statistics_never_divide_by_zero :
  forall (A : Py.arith) (data : Py.income_data A),
    Py.laws A ->
    PyFetch.calculate_income_statistics A data <> Raise ZeroDivisionError
    /\ (forall r,
          PyFetch.calculate_income_statistics A data = Ok r ->
          PyFetch.average A r
          = get_or (Py.average_household_income data) (Py.of_int A 0)
          /\ PyFetch.median A r
             = get_or (Py.median_household_income data) (Py.of_int A 0)
          /\ (Py.gtb A (PyFetch.average A r) (Py.of_int A 0) = false ->
              PyFetch.ratio_median_to_avg A r = Py.of_int A 0)
          /\ (Py.gtb A (PyFetch.average A r) (Py.of_int A 0) = true ->
              PyFetch.ratio_median_to_avg A r
              = Py.quotient A (PyFetch.median A r) (PyFetch.average A r)))
    /\ (Py.income_distribution data = None ->
        exists r,
          PyFetch.calculate_income_statistics A data = Ok r
          /\ PyFetch.top_75_percentile_threshold A r = Py.of_int A 0
          /\ PyFetch.bottom_25_threshold A r = Py.of_int A 0).
Proof.
  intros A data L.
  set (avg := get_or (Py.average_household_income data) (Py.of_int A 0)).
  set (med := get_or (Py.median_household_income data) (Py.of_int A 0)).
  assert (Hratio : (Py.gtb A avg (Py.of_int A 0) = false
                    /\ PyFetch.ratio A med avg = Ok (Py.of_int A 0))
                   \/ (Py.gtb A avg (Py.of_int A 0) = true
                       /\ PyFetch.ratio A med avg = Ok (Py.quotient A med avg))).
  { unfold PyFetch.ratio, Py.div.
    destruct (Py.gtb A avg (Py.of_int A 0)) eqn:G.
    - right. rewrite (Py.gtb_zero A L _ G). split; reflexivity.
    - left. split; reflexivity. }
  assert (Hbottom : PyFetch.calculate_bottom_25_threshold_from_distribution A
                      (get_or (Py.income_distribution data) [])
                    <> Raise ZeroDivisionError).
  { unfold PyFetch.calculate_bottom_25_threshold_from_distribution,
      PyFetch.interpolated_threshold_at.
    destruct (PyFetch.interpolated_loop A (Py.of_int A 25) (Py.of_int A 0)
                (get_or (Py.income_distribution data) [])) as [r|] eqn:E.
    - apply (py_interpolated_loop_no_zero_division A L _ _ _ r
               (Py.zero_below_25 A L) E).
    - discriminate. }
  unfold PyFetch.calculate_income_statistics. fold avg. fold med.
  split; [|split].
  - destruct (PyFetch.calculate_bottom_25_threshold_from_distribution A _)
      as [v|e]; [|intro Hbad; apply Hbottom; injection Hbad as ->; reflexivity].
    destruct Hratio as [[_ ->]|[_ ->]]; discriminate.
  - intros r Hr.
    destruct (PyFetch.calculate_bottom_25_threshold_from_distribution A _)
      as [v|e]; [|discriminate].
    destruct Hratio as [[G E]|[G E]]; rewrite E in Hr; injection Hr as <-; simpl;
      (split; [reflexivity|]); (split; [reflexivity|]); split; intro G';
      try reflexivity; congruence.
  - intro Hnone. rewrite Hnone. simpl.
    destruct Hratio as [[_ ->]|[_ ->]]; eexists;
      (split; [reflexivity|]); split; reflexivity.
Qed.

Lemma fetch_statistics_never_divide_by_zero_witness :
  PyFetch.calculate_income_statistics Py.binary64 PyFetch.sample_toronto_income_data
  <> Raise ZeroDivisionError.
Proof.
  apply (fetch_statistics_never_divide_by_zero Py.binary64
           PyFetch.sample_toronto_income_data binary64_laws).
Defined.

(** On the sample of the script the ratio is the float 77000 / 96000,
    0.80208333333333337, and the thresholds are 90000 and 34719. *)
Example fetch_statistics_on_sample :
  match PyFetch.calculate_income_statistics Py.binary64
          PyFetch.sample_toronto_income_data with
  | Ok r =>
      Some (PyFetch.ratio_median_to_avg Py.binary64 r,
            PyFetch.top_75_percentile_threshold Py.binary64 r,
            PyFetch.bottom_25_threshold Py.binary64 r)
  | Raise _ => None
  end
  = Some (S754_finite false 7224524402240171 (-53),
          Py.float_of_int 90000, Py.float_of_int 34719).
Proof. vm_compute. reflexivity. Qed.

(** ** The scan that never reaches the target, the empty distribution and
    the samples, in the arithmetic of the code *)

Lemma py_interpolated_loop_exhausted (A : Py.arith) (target : Py.num A)
      (d : Py.distribution A) :
  forall c : Py.num A,
    Py.stays_below A target c d ->
    PyFetch.interpolated_loop A target c d = None.
Proof.
  induction d as [|a rest IH]; intros c Hd; simpl in *; [reflexivity|].
  destruct Hd as [Ha Hrest]. rewrite Ha. apply IH. exact Hrest.
Qed.

Lemma py_top_loop_exhausted (A : Py.arith) (target : Py.num A)
      (d : Py.distribution A) :
  forall c : Py.num A,
    Py.stays_below A target c d ->
    PyAnalyzer.top_loop A target c d = None.
Proof.
  induction d as [|a rest IH]; intros c Hd; simpl in *; [reflexivity|].
  destruct Hd as [Ha Hrest]. rewrite Ha. apply IH. exact Hrest.
Qed.

(** In any arithmetic, when the running sum stays below the target over
    the whole distribution, the estimators of [fetch_statscan_income.py]
    return the maximum of the last bracket, or 0, and
    [calculate_top_75_threshold] the first number of the last label, or
    0. *)
Lemma py_exhausted_scan (A : Py.arith) (target : Py.num A)
      (d : Py.distribution A) :
  Py.prefixes_below A target d ->
  PyFetch.percentile_threshold_at A target d = PyFetch.after_loop A d
  /\ PyFetch.interpolated_threshold_at A target d = Ok (PyFetch.after_loop A d)
  /\ PyAnalyzer.top_threshold_at A target d = Ok (PyAnalyzer.after_loop A d).
Proof.
  intro H. apply py_stays_below_prefixes in H.
  unfold PyFetch.percentile_threshold_at, PyFetch.interpolated_threshold_at,
    PyAnalyzer.top_threshold_at.
  rewrite (py_percentile_loop_exhausted A target _ d H).
  rewrite (py_interpolated_loop_exhausted A target d _ H).
  rewrite (py_top_loop_exhausted A target d _ H).
  repeat split.
Qed.

(** In any arithmetic the percentile estimators return 0 on the empty
    distribution; in binary64 so does the average estimator. *)
Lemma py_empty_distribution (A : Py.arith) :
  PyFetch.calculate_75th_percentile_threshold_from_distribution A [] = Py.of_int A 0
  /\ PyFetch.calculate_bottom_25_threshold_from_distribution A [] = Ok (Py.of_int A 0)
  /\ PyAnalyzer.calculate_top_75_threshold A [] = Ok (Py.of_int A 0).
Proof. repeat split. Qed.

Example empty_average_in_binary64 :
  PyAnalyzer.estimate_average_from_distribution Py.binary64 []
  = Ok (Py.float_of_int 0).
Proof. vm_compute. reflexivity. Qed.

(** The two "top 75%" thresholds on the two samples, in binary64: 90000
    and 30000 on the sample of [fetch_statscan_income.py], 100000 and 40000
    on the sample of [statscan_income_analyzer.py]. *)
Example sample_thresholds_in_binary64 :
  PyFetch.calculate_75th_percentile_threshold_from_distribution Py.binary64
    PyFetch.sample_toronto_distribution = Py.float_of_int 90000
  /\ PyAnalyzer.calculate_top_75_threshold Py.binary64
       PyFetch.sample_toronto_distribution = Ok (Py.float_of_int 30000)
  /\ PyFetch.calculate_75th_percentile_threshold_from_distribution Py.binary64
       PyAnalyzer.sample_income_distribution = Py.float_of_int 100000
  /\ PyAnalyzer.calculate_top_75_threshold Py.binary64
       PyAnalyzer.sample_income_distribution = Ok (Py.float_of_int 40000).
Proof. repeat split; vm_compute; reflexivity. Qed.

(** A scan that never reaches the target, in binary64: the shares 10 and
    5 give 39998, twice 19999, for the last label "$19,999 and over" in
    [fetch_statscan_income.py] and 19999 in
    [statscan_income_analyzer.py]. *)
Example exhausted_scan_in_binary64 :
  let d := [ Py.bracket64 "Under $10,000" (Py.float_of_int 10);
             Py.bracket64 "$19,999 and over" (Py.float_of_int 5) ] in
  PyFetch.calculate_75th_percentile_threshold_from_distribution Py.binary64 d
  = Py.float_of_int 39998
  /\ PyFetch.calculate_bottom_25_threshold_from_distribution Py.binary64 d
     = Ok (Py.float_of_int 39998)
  /\ PyAnalyzer.calculate_top_75_threshold Py.binary64 d
     = Ok (Py.float_of_int 19999).
Proof. cbv zeta. repeat split; vm_compute; reflexivity. Qed.

(** The interpolated threshold on a distribution with a label that does
    not parse, in binary64: 15000 for the target 25 and 0 for the target
    60. *)
Example unparseable_label_thresholds_in_binary64 :
  let d := [ Py.bracket64 "$10,000 to $20,000" (Py.float_of_int 50);
             Py.bracket64 "Not stated" (Py.float_of_int 25);
             Py.bracket64 "$20,000 to $30,000" (Py.float_of_int 25) ] in
  PyFetch.interpolated_threshold_at Py.binary64 (Py.float_of_int 25) d
  = Ok (Py.float_of_int 15000)
  /\ PyFetch.interpolated_threshold_at Py.binary64 (Py.float_of_int 60) d
     = Ok (Py.float_of_int 0).
Proof. cbv zeta. split; vm_compute; reflexivity. Qed.

(** ** The average estimator in binary64 *)

(** The bracket "$0" is skipped in binary64 as in exact arithmetic: with
    10% at "$0" and 90% at "$1-$99,999" the estimated average is 50000. *)
Example zero_midpoint_skipped_in_binary64 :
  PyAnalyzer.estimate_average_from_distribution Py.binary64
    [ Py.bracket64 "$0" (Py.float_of_int 10);
      Py.bracket64 "$1-$99,999" (Py.float_of_int 90) ]
  = Ok (Py.float_of_int 50000).
Proof. vm_compute. reflexivity. Qed.

(** One bracket "$20,000-$39,999" with the share 12.1: the midpoint is
    29999.5 and the average, 29999.5 * 12.1 / 12.1 with the product and the
    quotient rounded, is 29999.500000000004, the next float above the
    midpoint. *)
Example average_of_one_bracket_in_binary64 :
  PyAnalyzer.extract_midpoint_of_range Py.binary64 "$20,000-$39,999"
  = Some (S754_finite false 8246199769366528 (-38))
  /\ Py.float_value (S754_finite false 8246199769366528 (-38))
     = Some (8246199769366528 # 274877906944)
  /\ (8246199769366528 # 274877906944) == 29999.5
  /\ PyAnalyzer.estimate_average_from_distribution Py.binary64
       [ Py.bracket64 "$20,000-$39,999" (Py.decimal 121 1) ]
     = Ok (S754_finite false 8246199769366529 (-38)).
Proof. repeat split; vm_compute; reflexivity. Qed.

(** ** The rational model is the code in exact arithmetic *)

Lemma exact_extract_minimum (s : string) :
  PyFetch.extract_minimum_of_range Py.exact s = Fetch.extract_minimum_of_range s.
Proof.
  unfold PyFetch.extract_minimum_of_range, Fetch.extract_minimum_of_range.
  destruct (Fetch.is_under (Fetch.clean s));
    [|destruct (Fetch.is_over (Fetch.clean s))];
    destruct (PyStr.findall_digits (Fetch.clean s)); reflexivity.
Qed.

Lemma exact_extract_maximum (s : string) :
  PyFetch.extract_maximum_of_range Py.exact s = Fetch.extract_maximum_of_range s.
Proof.
  unfold PyFetch.extract_maximum_of_range, Fetch.extract_maximum_of_range.
  destruct (Fetch.is_under (Fetch.clean s));
    [|destruct (Fetch.is_over (Fetch.clean s))];
    destruct (PyStr.findall_digits (Fetch.clean s)) as [|n0 [|n1 ns]]; reflexivity.
Qed.

Lemma exact_last_bracket (d : distribution) :
  Py.last_bracket Py.exact (map exact_bracket d)
  = option_map exact_bracket (last_bracket d).
Proof.
  induction d as [|b rest IH]; [reflexivity|].
  destruct rest as [|b' rest']; [reflexivity|].
  change (Py.last_bracket Py.exact (map exact_bracket (b :: b' :: rest')))
    with (Py.last_bracket Py.exact (map exact_bracket (b' :: rest'))).
  rewrite IH. reflexivity.
Qed.

Lemma exact_after_loop (d : distribution) :
  PyFetch.after_loop Py.exact (map exact_bracket d) = Fetch.after_loop d.
Proof.
  unfold PyFetch.after_loop, Fetch.after_loop. rewrite exact_last_bracket.
  destruct (last_bracket d) as [b|]; simpl; [|reflexivity].
  rewrite exact_extract_maximum. reflexivity.
Qed.

Lemma exact_percentile_loop (target : Q) (d : distribution) :
  forall c : Q,
    PyFetch.percentile_loop Py.exact target c (map exact_bracket d)
    = Fetch.percentile_loop target c d.
Proof.
  induction d as [|b rest IH]; intro c; simpl; [reflexivity|].
  rewrite exact_extract_minimum, IH. reflexivity.
Qed.

Lemma exact_interpolate (target c : Q) (b : bracket) :
  PyFetch.interpolate Py.exact target c (exact_bracket b)
  = Fetch.interpolate target c b.
Proof.
  unfold PyFetch.interpolate, Fetch.interpolate, Py.div. simpl.
  rewrite exact_extract_minimum, exact_extract_maximum.
  destruct (Qeq_bool (percentage b) 0); [reflexivity|].
  destruct (Fetch.extract_minimum_of_range (range b));
    destruct (Fetch.extract_maximum_of_range (range b)); reflexivity.
Qed.

Lemma exact_interpolated_loop (target : Q) (d : distribution) :
  forall c : Q,
    PyFetch.interpolated_loop Py.exact target c (map exact_bracket d)
    = Fetch.interpolated_loop target c d.
Proof.
  induction d as [|b rest IH]; intro c; simpl; [reflexivity|].
  rewrite IH. change (Py.geb Py.exact (Py.add Py.exact c (percentage b)) target)
    with (Qle_bool target (c + percentage b)).
  destruct (Qle_bool target (c + percentage b)); [|reflexivity].
  rewrite <- exact_interpolate. reflexivity.
Qed.

Lemma exact_top_loop (target : Q) (d : distribution) :
  forall c : Q,
    PyAnalyzer.top_loop Py.exact target c (map exact_bracket d)
    = Analyzer.top_loop target c d.
Proof.
  induction d as [|b rest IH]; intro c; simpl; [reflexivity|].
  rewrite IH. reflexivity.
Qed.

Lemma exact_average_fold (d : distribution) :
  forall acc : Q * Q,
    fold_left (PyAnalyzer.average_step Py.exact) (map exact_bracket d) acc
    = fold_left Analyzer.average_step d acc.
Proof.
  induction d as [|b rest IH]; intro acc; simpl; [reflexivity|].
  rewrite <- IH. reflexivity.
Qed.

Lemma exact_average_quotient (totals : Q * Q) :
  (if Py.gtb Py.exact (snd totals) (Py.of_int Py.exact 0)
   then Py.div Py.exact (fst totals) (snd totals)
   else Ok (Py.of_int Py.exact 0))
  = Ok (if Qle_bool (snd totals) 0 then 0 else fst totals / snd totals).
Proof.
  destruct totals as [weighted total].
  change (Py.gtb Py.exact (snd (weighted, total)) (Py.of_int Py.exact 0))
    with (negb (Qle_bool total 0)).
  change (snd (weighted, total)) with total.
  change (fst (weighted, total)) with weighted.
  destruct (Qle_bool total 0) eqn:E; simpl; [reflexivity|].
  unfold Py.div. simpl.
  destruct (Qeq_bool total 0) eqn:Z; [|reflexivity].
  apply Qeq_bool_eq in Z.
  assert (Qle_bool total 0 = true) as T
    by (apply Qle_bool_iff; rewrite Z; apply Qle_refl).
  rewrite T in E. discriminate E.
Qed.

(** The interpolation of the specification in exact arithmetic. *)
Lemma interpolation_in_exact (target cumulative_before share mn mx : Q) :
  interpolation_in Py.exact target cumulative_before share mn mx
  = interpolation_spec target cumulative_before share mn mx.
Proof. reflexivity. Qed.

(** The estimators of [Fetch] and [Analyzer] are the estimators of
    [PyFetch] and [PyAnalyzer] in the arithmetic [Py.exact]. *)
Lemma rational_model_is_exact_instance (target : Q) (d : distribution) :
  PyFetch.percentile_threshold_at Py.exact target (map exact_bracket d)
  = Fetch.percentile_threshold_at target d
  /\ PyFetch.interpolated_threshold_at Py.exact target (map exact_bracket d)
     = Fetch.interpolated_threshold_at target d
  /\ PyAnalyzer.top_threshold_at Py.exact target (map exact_bracket d)
     = Analyzer.top_threshold_at target d
  /\ PyAnalyzer.estimate_average_from_distribution Py.exact (map exact_bracket d)
     = Ok (Analyzer.estimate_average_from_distribution d).
Proof.
  split; [|split; [|split]].
  - unfold PyFetch.percentile_threshold_at, Fetch.percentile_threshold_at.
    rewrite (exact_percentile_loop target d (Py.of_int Py.exact 0)), exact_after_loop.
    reflexivity.
  - unfold PyFetch.interpolated_threshold_at, Fetch.interpolated_threshold_at.
    rewrite (exact_interpolated_loop target d (Py.of_int Py.exact 0)), exact_after_loop.
    reflexivity.
  - unfold PyAnalyzer.top_threshold_at, Analyzer.top_threshold_at.
    rewrite (exact_top_loop target d (Py.of_int Py.exact 0)).
    unfold PyAnalyzer.after_loop, Analyzer.after_loop.
    rewrite exact_last_bracket. destruct (last_bracket d); reflexivity.
  - unfold PyAnalyzer.estimate_average_from_distribution,
      Analyzer.estimate_average_from_distribution.
    rewrite (exact_average_fold d (Py.of_int Py.exact 0, Py.of_int Py.exact 0)).
    exact (exact_average_quotient (fold_left Analyzer.average_step d (0, 0))).
Qed.
